(** * Robotiq 85 gripper action server

    A shallow embedding of
    [robotiq_85_driver/single_robotiq_85_action_server.py]: the node
    [Robotiq85ActionServer], its three action callbacks and the subscription
    callback that feeds the status attribute [_stat].

    Python floats are IEEE binary64 numbers and are modelled by Rocq's
    primitive floats, so [fabs], [-] and [<] below are the operations the
    interpreter performs.  Everything the callbacks do to the outside world
    (log lines, publications, calls on the goal handle, sleeping) is recorded
    as a list of events, oldest first.  What the outside world does to the
    callback (the clock, [rclpy.ok()], messages on [/gripper/stat], cancel
    requests) is an input of the model, one record per loop iteration.  The
    thread that spins the node runs [_update_gripper_stat] while the loop
    body runs: the body loads [self._stat] four times, and the record says
    which messages are handled between one load and the next. *)

From Stdlib Require Import ZArith List String Bool Lia.
From Stdlib Require Import Floats Uint63.
Import ListNotations.

Set Warnings "-inexact-float".
#[local] Open Scope string_scope.
#[local] Open Scope list_scope.

(** ** Python numbers *)

(** [math.fabs] on a float. *)
Definition fabs (x : float) : float := PrimFloat.abs x.

(** [float(n)] for an integer [n].  The two fields it is applied to are an
    [int32] and a [uint32], far below [2^53], where the conversion is exact. *)
Definition float_of_int (n : Z) : float :=
  if (n <? 0)%Z
  then PrimFloat.opp (PrimFloat.of_uint63 (Uint63.of_Z (- n)))
  else PrimFloat.of_uint63 (Uint63.of_Z n).

(** ** Messages

    The message classes come from [builtin_interfaces], [robotiq_85_msgs] and
    [control_msgs]; the records keep the fields the server reads or writes.
    A freshly constructed message has every number at [0.0] and every flag
    at [False]. *)

Module Time.
Record t := { sec : Z; nanosec : Z }.
End Time.

Module GripperCmd.
Record t := { position : float; speed : float; force : float }.
End GripperCmd.

Module GripperStat.
Record t := { position : float; is_moving : bool; obj_detected : bool }.
End GripperStat.

Module Command.
Record t := { position : float; max_effort : float }.
End Command.

Module Goal.
Record t := { command : Command.t }.
End Goal.

Module Feedback.
Record t := { position : float; effort : float;
                stalled : bool; reached_goal : bool }.
Definition new : t :=
    {| position := 0; effort := 0; stalled := false; reached_goal := false |}.
Definition set_position (m : t) (x : float) : t :=
    {| position := x; effort := effort m;
       stalled := stalled m; reached_goal := reached_goal m |}.
Definition set_stalled (m : t) (b : bool) : t :=
    {| position := position m; effort := effort m;
       stalled := b; reached_goal := reached_goal m |}.
Definition set_reached_goal (m : t) (b : bool) : t :=
    {| position := position m; effort := effort m;
       stalled := stalled m; reached_goal := b |}.
End Feedback.

Module Result.
Record t := { position : float; effort : float;
                stalled : bool; reached_goal : bool }.
Definition new : t :=
    {| position := 0; effort := 0; stalled := false; reached_goal := false |}.
Definition set_reached_goal (m : t) (b : bool) : t :=
    {| position := position m; effort := effort m;
       stalled := stalled m; reached_goal := b |}.
End Result.

(** ** The action protocol, as far as the server calls it *)

Inductive GoalResponse := GoalResponse_REJECT | GoalResponse_ACCEPT.
Inductive CancelResponse := CancelResponse_REJECT | CancelResponse_ACCEPT.

(** Status of a goal that has been handed to the execute callback. *)
Inductive GoalStatus :=
| STATUS_EXECUTING | STATUS_CANCELING
| STATUS_SUCCEEDED | STATUS_CANCELED | STATUS_ABORTED.

Record GoalHandle := { request : Goal.t; status : GoalStatus }.

(** [goal_handle.succeed()]. *)
Definition succeed (h : GoalHandle) : GoalHandle :=
  {| request := request h; status := STATUS_SUCCEEDED |}.

(** What the action server does with a goal once the cancel callback has
    answered: an accepted request moves an executing goal to canceling. *)
Definition cancel_goal (r : CancelResponse) (h : GoalHandle) : GoalHandle :=
  match r, status h with
  | CancelResponse_ACCEPT, STATUS_EXECUTING =>
      {| request := request h; status := STATUS_CANCELING |}
  | _, _ => h
  end.

(** [goal_handle.is_cancel_requested]. *)
Definition is_cancel_requested (h : GoalHandle) : bool :=
  match status h with STATUS_CANCELING => true | _ => false end.

(** ** Events *)

Inductive Level := INFO | WARN.

Inductive Event :=
| Log (l : Level) (msg : string)          (* self.get_logger().info / .warn *)
| Publish (m : GripperCmd.t)              (* self._gripper_pub.publish *)
| ThreadStart                             (* thread.start() *)
| PublishFeedback (m : Feedback.t)        (* goal_handle.publish_feedback *)
| Succeed                                 (* goal_handle.succeed() *)
| Sleep                                   (* rate.sleep(), rate of 100 Hz *)
| ThreadJoin.                             (* thread.join() *)

(** ** The node *)

Record Node := {
  _timeout : float;
  _position_tolerance : float;
  _gripper_speed : float;
  _stat : option GripperStat.t
}.

(** [declare_parameter] followed by [get_parameter]: the value given at
    launch, or the declared default. *)
Definition parameter (overrides : string -> option float)
    (name : string) (default : float) : float :=
  match overrides name with
  | Some v => v
  | None => default
  end.

Definition __init__ (overrides : string -> option float) : Node :=
  {| _timeout := parameter overrides "timeout" 5.0;
     _position_tolerance := parameter overrides "position_tolerance" 0.005;
     _gripper_speed := parameter overrides "gripper_speed" 0.0565;
     _stat := None |}.

(** [get_time], applied to the reading of the node's clock. *)
Definition get_time (time_msg : Time.t) : float :=
  (float_of_int (Time.sec time_msg)
   + float_of_int (Time.nanosec time_msg) * 1e-9)%float.

Definition _goal_callback (self : Node) (goal_request : Goal.t)
  : list Event * GoalResponse :=
  ([Log INFO "Gripper received goal request"], GoalResponse_ACCEPT).

Definition _cancel_callback (self : Node) (goal_handle : GoalHandle)
  : list Event * CancelResponse :=
  ([Log INFO "Gripper received cancel request"], CancelResponse_ACCEPT).

Definition _update_gripper_stat (self : Node) (data : GripperStat.t) : Node :=
  {| _timeout := _timeout self;
     _position_tolerance := _position_tolerance self;
     _gripper_speed := _gripper_speed self;
     _stat := Some data |}.

(** ** Names and values at the [return] statement *)

Inductive Object :=
| ResultMsg (m : Result.t)
| FeedbackMsg (m : Feedback.t)
| CmdMsg (m : GripperCmd.t)
| Float (x : float)
| Opaque (what : string).      (* modules, classes, functions, threads, rates *)

Inductive Exception :=
| NameError (name : string).

(** Names bound at module level: the imports, the class and [main]. *)
Definition module_globals : list string :=
  [ "threading"; "time"; "np"; "fabs"; "rclpy"; "Node"; "ActionServer";
    "CancelResponse"; "GoalResponse"; "ReentrantCallbackGroup";
    "MutuallyExclusiveCallbackGroup"; "MultiThreadedExecutor";
    "ParameterNotDeclaredException"; "ParameterType"; "Robotiq85Gripper";
    "JointState"; "GripperCommand"; "GripperCmd"; "GripperStat";
    "Robotiq85ActionServer"; "main" ].

Fixpoint lookup (name : string) (ns : list (string * Object)) : option Object :=
  match ns with
  | [] => None
  | (k, v) :: ns' => if String.eqb name k then Some v else lookup name ns'
  end.

(** Reading a name: the function's own variables first, then the module's;
    a name found in neither is a [NameError]. *)
Definition load_name (locals : list (string * Object)) (name : string)
  : Object + Exception :=
  match lookup name locals with
  | Some v => inl v
  | None =>
      if existsb (String.eqb name) module_globals
      then inl (Opaque name)
      else inr (NameError name)
  end.

(** ** The environment of one execution *)

(** What happens around one iteration: the messages the subscription
    handled and the cancel request the action server received since the
    previous iteration, the value of [rclpy.ok()] and the clock reading of
    this iteration; then the messages the subscription handles while the
    body runs, between the test [self._stat is None] and the load of
    [self._stat.position], between that load and the one of
    [self._stat.is_moving], and between that one and the load of
    [self._stat.obj_detected]. *)
Record Tick := {
  stat_msgs : list GripperStat.t;
  cancel_request : bool;
  ok : bool;
  now : Time.t;
  before_position : list GripperStat.t;
  before_is_moving : list GripperStat.t;
  before_obj_detected : list GripperStat.t
}.

(** The messages handled while the body of the iteration runs, and all the
    messages of the iteration. *)
Definition during (t : Tick) : list GripperStat.t :=
  before_position t ++ before_is_moving t ++ before_obj_detected t.

Definition arrivals (t : Tick) : list GripperStat.t :=
  stat_msgs t ++ during t.

Record World := {
  start : Time.t;          (* clock reading that becomes [start_time] *)
  ticks : list Tick;       (* the iterations observed, in order *)
  spin_returns : bool      (* whether the thread running [rclpy.spin] ends *)
}.

(** ** The execute callback *)

(** The objects the callback mutates while it runs. *)
Record Frame := {
  self : Node;
  goal_handle : GoalHandle;
  feedback_msg : Feedback.t;
  result_msg : Result.t;
  dt : option float        (* unbound until the loop body runs *)
}.

Definition with_feedback (fr : Frame) (m : Feedback.t) : Frame :=
  {| self := self fr; goal_handle := goal_handle fr; feedback_msg := m;
     result_msg := result_msg fr; dt := dt fr |}.

Definition with_handle (fr : Frame) (h : GoalHandle) : Frame :=
  {| self := self fr; goal_handle := h; feedback_msg := feedback_msg fr;
     result_msg := result_msg fr; dt := dt fr |}.

Definition with_self (fr : Frame) (n : Node) : Frame :=
  {| self := n; goal_handle := goal_handle fr; feedback_msg := feedback_msg fr;
     result_msg := result_msg fr; dt := dt fr |}.

Definition with_dt (fr : Frame) (x : float) : Frame :=
  {| self := self fr; goal_handle := goal_handle fr;
     feedback_msg := feedback_msg fr; result_msg := result_msg fr;
     dt := Some x |}.

(** The other callbacks of the node, served while the loop sleeps. *)
Definition serve (t : Tick) (fr : Frame) : Frame :=
  let fr := with_self fr (fold_left _update_gripper_stat (stat_msgs t) (self fr)) in
  if cancel_request t
  then with_handle fr
         (cancel_goal (snd (_cancel_callback (self fr) (goal_handle fr)))
                      (goal_handle fr))
  else fr.

(** The subscription handles messages while the callback runs. *)
Definition handle (msgs : list GripperStat.t) (fr : Frame) : Frame :=
  with_self fr (fold_left _update_gripper_stat msgs (self fr)).

(** [self._stat], loaded in the branch where the test found it not [None].
    No callback assigns [None] to the attribute, so it holds a status;
    [seen] is the status of the previous load. *)
Definition load (fr : Frame) (seen : GripperStat.t) : GripperStat.t :=
  match _stat (self fr) with
  | Some stat => stat
  | None => seen
  end.

(** Where the loop stands after an iteration. *)
Inductive LoopState :=
| Polling      (* reached [rate.sleep()]; the loop goes on *)
| Succeeded    (* [goal_handle.succeed()] then [break] *)
| TimedOut     (* [break] under the timeout test *)
| Shutdown.    (* [rclpy.ok()] was false at the loop test *)

(** The test of line 153. *)
Definition goal_reached (self : Node) (goal_handle : GoalHandle)
    (feedback_msg : Feedback.t) (stat : GripperStat.t) : bool :=
  (fabs (Command.position (Goal.command (request goal_handle))
         - Feedback.position feedback_msg)
   <? _position_tolerance self)%float
  || GripperStat.obj_detected stat.

Definition repr (b : bool) : string := if b then "True" else "False".

(** One pass through the body of the [while] loop. *)
Definition body (start_time : float) (t : Tick) (fr : Frame)
  : list Event * Frame * LoopState :=
  let d := (get_time (now t) - start_time)%float in
  let fr := with_dt fr d in
  if negb (d <? _timeout (self fr))%float then
    ([Log WARN "Gripper timeout reached"], fr, TimedOut)
  else
    match _stat (self fr) with                         (* line 146 *)
    | None =>
        ([Log WARN "No gripper feedback yet"; Sleep],
         handle (during t) fr, Polling)
    | Some seen =>
        let fr := handle (before_position t) fr in
        let position := GripperStat.position (load fr seen) in  (* 149 *)
        let m := Feedback.set_position (feedback_msg fr) position in
        let fr := handle (before_is_moving t) fr in
        let is_moving := GripperStat.is_moving (load fr seen) in  (* 150 *)
        let m := Feedback.set_stalled m (negb is_moving) in
        let fr := handle (before_obj_detected t) fr in
        let stat := load fr seen in                            (* 153 *)
        let hit := goal_reached (self fr) (goal_handle fr) m stat in
        let m := if hit then Feedback.set_reached_goal m true else m in
        let said :=
          if hit
          then [Log INFO ("Goal achieved: " ++ repr (Feedback.reached_goal m))]
          else [] in
        let fr := with_feedback fr m in
        if Feedback.reached_goal m then
          (said ++ [PublishFeedback m; Succeed],
           with_handle fr (succeed (goal_handle fr)), Succeeded)
        else
          (said ++ [PublishFeedback m; Sleep], fr, Polling)
    end.

(** The [while rclpy.ok()] loop over the iterations observed.  [Polling] as
    a final state means the observations ended while the loop was running. *)
Fixpoint while_ok (start_time : float) (ts : list Tick) (fr : Frame)
  : list Event * Frame * LoopState :=
  match ts with
  | [] => ([], fr, Polling)
  | t :: ts' =>
      let fr := serve t fr in
      if ok t then
        match body start_time t fr with
        | (evs, fr', Polling) =>
            let '(evs', fr'', s) := while_ok start_time ts' fr' in
            (evs ++ evs', fr'', s)
        | r => r
        end
      else ([], fr, Shutdown)
  end.

(** How a call of the callback ends. *)
Inductive Outcome :=
| Returned (v : Object)
| Raised (e : Exception)
| Joining      (* blocked in [thread.join()] *)
| Looping.     (* still in the loop when the observations end *)

(** The message sent to the gripper. *)
Definition cmd_msg (self : Node) (goal_handle : GoalHandle) : GripperCmd.t :=
  {| GripperCmd.position := Command.position (Goal.command (request goal_handle));
     GripperCmd.speed := _gripper_speed self;
     GripperCmd.force := Command.max_effort (Goal.command (request goal_handle)) |}.

(** The frame on entry to the loop: a fresh feedback message and a fresh
    result whose [reached_goal] is set to [False]. *)
Definition entry (self : Node) (goal_handle : GoalHandle) : Frame :=
  {| self := self; goal_handle := goal_handle;
     feedback_msg := Feedback.new;
     result_msg := Result.set_reached_goal Result.new false;
     dt := None |}.

(** The function's variables after [result_msg = feedback_msg]: both names
    denote the one feedback object. *)
Definition locals (start_time : float) (c : GripperCmd.t) (fr : Frame)
  : list (string * Object) :=
  [ ("self", Opaque "Robotiq85ActionServer");
    ("goal_handle", Opaque "ServerGoalHandle");
    ("cmd_msg", CmdMsg c);
    ("thread", Opaque "Thread");
    ("feedback_msg", FeedbackMsg (feedback_msg fr));
    ("result_msg", FeedbackMsg (feedback_msg fr));
    ("rate", Opaque "Rate");
    ("start_time", Float start_time) ]
  ++ match dt fr with
     | Some d => [("dt", Float d)]
     | None => []
     end.

(** The statements after the loop: [thread.join()], the assignment to
    [result_msg] and [return result]. *)
Definition epilogue (w : World) (start_time : float) (c : GripperCmd.t)
    (fr : Frame) : Outcome :=
  if spin_returns w then
    match load_name (locals start_time c fr) "result" with
    | inl v => Returned v
    | inr e => Raised e
    end
  else Joining.

Definition _execute_callback (self : Node) (goal_handle : GoalHandle)
    (w : World) : list Event * Frame * Outcome :=
  let c := cmd_msg self goal_handle in
  let start_time := get_time (start w) in
  let '(evs, fr, s) := while_ok start_time (ticks w) (entry self goal_handle) in
  let before := [Log INFO "Gripper executing goal..."; Publish c; ThreadStart] in
  match s with
  | Polling => (before ++ evs, fr, Looping)
  | _ => (before ++ evs ++ [ThreadJoin], fr, epilogue w start_time c fr)
  end.

(** ** Reading a trace *)

Definition events_of (r : list Event * Frame * Outcome) : list Event := fst (fst r).
Definition frame_of (r : list Event * Frame * Outcome) : Frame := snd (fst r).
Definition outcome_of (r : list Event * Frame * Outcome) : Outcome := snd r.

(** The feedback messages published, in order. *)
Fixpoint feedbacks (evs : list Event) : list Feedback.t :=
  match evs with
  | [] => []
  | PublishFeedback m :: evs' => m :: feedbacks evs'
  | _ :: evs' => feedbacks evs'
  end.

(** The commands sent to the gripper, in order. *)
Fixpoint commands (evs : list Event) : list GripperCmd.t :=
  match evs with
  | [] => []
  | Publish m :: evs' => m :: commands evs'
  | _ :: evs' => commands evs'
  end.

(** How many times the goal was marked succeeded. *)
Fixpoint successes (evs : list Event) : nat :=
  match evs with
  | [] => 0
  | Succeed :: evs' => S (successes evs')
  | _ :: evs' => successes evs'
  end.

(** The same observations with the cancel requests taken out. *)
Definition without_cancel (t : Tick) : Tick :=
  {| stat_msgs := stat_msgs t; cancel_request := false;
     ok := ok t; now := now t;
     before_position := before_position t;
     before_is_moving := before_is_moving t;
     before_obj_detected := before_obj_detected t |}.

Definition uncancelled (w : World) : World :=
  {| start := start w; ticks := map without_cancel (ticks w);
     spin_returns := spin_returns w |}.

(** A goal that is being executed, cancel request or not, or has succeeded. *)
Definition live_or_succeeded (s : GoalStatus) : bool :=
  match s with
  | STATUS_EXECUTING | STATUS_CANCELING | STATUS_SUCCEEDED => true
  | STATUS_CANCELED | STATUS_ABORTED => false
  end.

(** The reached condition in the words of the specification: the distance
    between the goal's target position and the status position is below the
    tolerance, or the status reports a detected object. *)
Definition reached (self0 : Node) (gh0 : GoalHandle) (stat : GripperStat.t)
  : bool :=
  (fabs (Command.position (Goal.command (request gh0))
         - GripperStat.position stat)
   <? _position_tolerance self0)%float
  || GripperStat.obj_detected stat.

(** The statuses the body loads when the test found [stat]: each is the
    last message handled since the previous load, or the status of that
    load. *)
Definition position_read (t : Tick) (stat : GripperStat.t) : GripperStat.t :=
  last (before_position t) stat.

Definition moving_read (t : Tick) (stat : GripperStat.t) : GripperStat.t :=
  last (before_is_moving t) (position_read t stat).

Definition detect_read (t : Tick) (stat : GripperStat.t) : GripperStat.t :=
  last (before_obj_detected t) (moving_read t stat).

(** The condition as the body evaluates it: the position of one load, the
    detection flag of another. *)
Definition judged (self0 : Node) (gh0 : GoalHandle)
    (at_position at_detection : GripperStat.t) : bool :=
  (fabs (Command.position (Goal.command (request gh0))
         - GripperStat.position at_position)
   <? _position_tolerance self0)%float
  || GripperStat.obj_detected at_detection.

(** The feedback as the body builds it: the position of one load, the
    motion flag of another. *)
Definition feedback_from (prev : Feedback.t)
    (at_position at_motion : GripperStat.t) (hit : bool) : Feedback.t :=
  {| Feedback.position := GripperStat.position at_position;
     Feedback.effort := Feedback.effort prev;
     Feedback.stalled := negb (GripperStat.is_moving at_motion);
     Feedback.reached_goal := hit |}.

(** The feedback built from a status. *)
Definition feedback_of (prev : Feedback.t) (stat : GripperStat.t) (hit : bool)
  : Feedback.t :=
  {| Feedback.position := GripperStat.position stat;
     Feedback.effort := Feedback.effort prev;
     Feedback.stalled := negb (GripperStat.is_moving stat);
     Feedback.reached_goal := hit |}.

(** What every frame of an execution keeps from the call: the node's
    parameters and the goal's request; and, as long as the loop is polling,
    a feedback message whose [reached_goal] is still [False]. *)
Record tracks (self0 : Node) (gh0 : GoalHandle) (fr : Frame) : Prop := {
  same_timeout : _timeout (self fr) = _timeout self0;
  same_tolerance : _position_tolerance (self fr) = _position_tolerance self0;
  same_speed : _gripper_speed (self fr) = _gripper_speed self0;
  same_request : request (goal_handle fr) = request gh0;
  unreached : Feedback.reached_goal (feedback_msg fr) = false
}.

(** Two frames that differ at most in the status of the goal handle. *)
Definition alike (a b : Frame) : Prop :=
  self a = self b
  /\ feedback_msg a = feedback_msg b
  /\ result_msg a = result_msg b
  /\ dt a = dt b
  /\ request (goal_handle a) = request (goal_handle b).

(** ** Concrete executions

    A node with the declared defaults (timeout 5.0 s, tolerance 0.005 m,
    speed 0.0565 m/s), a goal at 0.04 m, and a clock that starts at 100 s. *)

Module Scenario.

Definition node : Node := __init__ (fun _ => None).

(** The same node launched with [timeout] set to [0.0]. *)
Definition node_without_time : Node :=
  __init__ (fun name => if String.eqb name "timeout" then Some 0%float else None).

Definition handle : GoalHandle :=
  {| request :=
       {| Goal.command :=
            {| Command.position := 0.04; Command.max_effort := 100 |} |};
     status := STATUS_EXECUTING |}.

(** The clock [ms] milliseconds after the start. *)
Definition clock (ms : Z) : Time.t :=
  {| Time.sec := 100 + ms / 1000; Time.nanosec := (ms mod 1000) * 1000000 |}.

Definition stat (position : float) (is_moving obj_detected : bool)
  : GripperStat.t :=
  {| GripperStat.position := position;
     GripperStat.is_moving := is_moving;
     GripperStat.obj_detected := obj_detected |}.

Definition tick (ms : Z) (msgs : list GripperStat.t) (cancel : bool) : Tick :=
  {| stat_msgs := msgs; cancel_request := cancel; ok := true; now := clock ms;
     before_position := []; before_is_moving := [];
     before_obj_detected := [] |}.

Definition start_time : float := get_time (clock 0).

(** No status yet, then the gripper at 0.02 m and moving. *)
Definition far : list Tick :=
  [ tick 0 [] false; tick 10 [stat 0.02 true false] false ].

(** What the loop has done, and the frame it has reached, after [far]. *)
Definition far_events : list Event :=
  [ Log WARN "No gripper feedback yet"; Sleep;
    PublishFeedback (feedback_of Feedback.new (stat 0.02 true false) false);
    Sleep ].

Definition far_frame : Frame :=
  {| self := _update_gripper_stat node (stat 0.02 true false);
     goal_handle := handle;
     feedback_msg := feedback_of Feedback.new (stat 0.02 true false) false;
     result_msg := Result.new;
     dt := Some (get_time (clock 10) - start_time)%float |}.

(** The gripper at 0.038 m, within the tolerance of the target. *)
Definition near : Tick := tick 20 [stat 0.038 true false] false.

(** The gripper stopped on an object at 0.02 m, out of tolerance. *)
Definition grasp : Tick := tick 20 [stat 0.02 false true] false.

(** Five seconds after the start. *)
Definition late : Tick := tick 5000 [stat 0.02 true false] false.

(** Iterations that come after the one that ends the loop. *)
Definition afterwards : list Tick :=
  [ tick 5010 [stat 0.04 false false] false;
    tick 5020 [stat 0.04 false false] false ].

(** An approach that ends within tolerance. *)
Definition approach : World :=
  {| start := clock 0; ticks := far ++ near :: afterwards;
     spin_returns := true |}.

(** A gripper that stays at 0.02 m until the timeout. *)
Definition stuck : World :=
  {| start := clock 0; ticks := far ++ late :: afterwards;
     spin_returns := true |}.

(** No status at all during the first three iterations. *)
Definition silent : World :=
  {| start := clock 0;
     ticks := [ tick 0 [] false; tick 10 [] false; tick 20 [] false ];
     spin_returns := true |}.

(** One iteration, for the node whose timeout is [0.0]. *)
Definition immediate : World :=
  {| start := clock 0; ticks := [ tick 0 [stat 0.04 false false] false ];
     spin_returns := true |}.

(** A cancel request accepted before the first iteration, while the
    gripper moves from 0.02 m to the target. *)
Definition cancelled_early : list Tick :=
  [ tick 0 [stat 0.02 true false] true ].

Definition cancelled : World :=
  {| start := clock 0;
     ticks := cancelled_early
              ++ [ tick 10 [stat 0.03 true false] false;
                   tick 20 [stat 0.04 false false] false ];
     spin_returns := true |}.

End Scenario.

(** The statuses an execution can see: the one the node holds when the goal
    arrives and the messages handled while the loop runs. *)
Definition statuses (self0 : Node) (w : World) : list GripperStat.t :=
  match _stat self0 with
  | Some stat => [stat]
  | None => []
  end ++ flat_map arrivals (ticks w).

(** ** The process: [shutdown], [destroy] and [main] *)

(** The attributes the constructor assigns on the instance, and the names
    the class body defines. *)
Definition instance_attributes : list string :=
  [ "_timeout"; "_position_tolerance"; "_gripper_speed"; "_gripper_pub";
    "_stat"; "_action_server" ].

Definition class_attributes : list string :=
  [ "__init__"; "get_time"; "shutdown"; "destroy"; "_goal_callback";
    "_cancel_callback"; "_execute_callback"; "_update_gripper_stat" ].

(** Whether [self.name] finds something: on the instance, in the class, or
    among the names [inherited] from the base class [Node]. *)
Definition has_attribute (inherited : list string) (name : string) : bool :=
  existsb (String.eqb name)
    (instance_attributes ++ class_attributes ++ inherited).

(** What the process does, in order. *)
Inductive Step :=
| rclpy_init
| node_created (n : Node)
| logged (l : Level) (msg : string)
| spinning                      (* rclpy.spin(action_server, executor) *)
| gripper_shutdown              (* self._gripper.shutdown() *)
| action_server_destroyed       (* self._action_server.destroy() *)
| node_destroyed                (* super().destroy_node() *)
| rclpy_shutdown.

Inductive AttributeError :=
| no_attribute (name : string).

Definition shutdown (inherited : list string)
  : list Step * option AttributeError :=
  if has_attribute inherited "_gripper"
  then ([logged INFO "Shutdown gripper"; gripper_shutdown], None)
  else ([logged INFO "Shutdown gripper"], Some (no_attribute "_gripper")).

Definition destroy : list Step :=
  [action_server_destroyed; node_destroyed].

(** How [main] ends: it returns, an exception leaves it, or [rclpy.spin]
    never returns. *)
Inductive Exit :=
| returned
| raised (e : AttributeError)
| spins.

Definition main (inherited : list string) (overrides : string -> option float)
    (spin_ends : bool) : list Step * Exit :=
  let action_server := __init__ overrides in
  let up := [ rclpy_init; node_created action_server;
              logged INFO "Gripper server ready"; spinning ] in
  if spin_ends then
    match shutdown inherited with
    | (steps, Some e) => (up ++ steps, raised e)
    | (steps, None) => (up ++ steps ++ destroy ++ [rclpy_shutdown], returned)
    end
  else (up, spins).

(** ** More concrete executions *)

Module Cases.

(** A node launched with [timeout] set to NaN. *)
Definition node_nan : Node :=
  __init__ (fun name =>
              if String.eqb name "timeout" then Some nan else None).

(** A node launched with [position_tolerance] set to [0.0]. *)
Definition node_strict : Node :=
  __init__ (fun name =>
              if String.eqb name "position_tolerance" then Some 0%float
              else None).

(** An iteration at which [rclpy.ok()] is false. *)
Definition halted : Tick :=
  {| stat_msgs := [Scenario.stat 0.04 false false]; cancel_request := false;
     ok := false; now := Scenario.clock 20;
     before_position := []; before_is_moving := [];
     before_obj_detected := [] |}.

(** An iteration during which the status changes: an object detected at
    0.02 m while moving is what the test and the load of the position see;
    the gripper stopped on the target, no object, is what the loads of the
    motion flag and of the detection flag see. *)
Definition caught : GripperStat.t := Scenario.stat 0.02 true true.
Definition arrived : GripperStat.t := Scenario.stat 0.04 false false.

Definition torn : Tick :=
  {| stat_msgs := [caught]; cancel_request := false;
     ok := true; now := Scenario.clock 0;
     before_position := []; before_is_moving := [arrived];
     before_obj_detected := [] |}.

Definition interrupted : World :=
  {| start := Scenario.clock 0;
     ticks := Scenario.far ++ halted :: Scenario.afterwards;
     spin_returns := true |}.

(** The gripper exactly at the target of [Scenario.handle]. *)
Definition on_target : Tick :=
  Scenario.tick 20 [Scenario.stat 0.04 false false] false.

(** Two messages handled before one iteration. *)
Definition burst : Tick :=
  Scenario.tick 0
    [Scenario.stat 0.01 true false; Scenario.stat 0.02 true false] false.

(** A first goal that ends on a grasped object at 0.02 m. *)
Definition grasping : World :=
  {| start := Scenario.clock 0; ticks := Scenario.far ++ [Scenario.grasp];
     spin_returns := true |}.

(** A second goal, to open the gripper to 0.08 m; no status has arrived
    when its first iteration runs. *)
Definition opening : GoalHandle :=
  {| request :=
       {| Goal.command :=
            {| Command.position := 0.08; Command.max_effort := 100 |} |};
     status := STATUS_EXECUTING |}.

Definition quiet : Tick := Scenario.tick 0 [] false.

Definition reopening : World :=
  {| start := Scenario.clock 0; ticks := [quiet];
     spin_returns := true |}.

(** Some names of the base class, none of them [_gripper]. *)
Definition node_names : list string :=
  [ "get_logger"; "get_clock"; "declare_parameter"; "get_parameter";
    "create_subscription"; "create_publisher"; "create_rate";
    "destroy_node" ].

End Cases.

(** * Properties *)

(** ** Floats: the timeout test *)

Section FloatOrder.

Lemma SFcompare_le_not_gt (x y : spec_float) :
    SFleb x y = true -> SFltb y x = false.
Proof.
    unfold SFleb, SFltb.
    destruct x as [sx| sx | |sx mx ex], y as [sy|sy| |sy my ey]; cbn;
      try reflexivity; try discriminate;
      try (destruct sx; try reflexivity; discriminate);
      try (destruct sy; try reflexivity; discriminate);
      try (destruct sx, sy; try reflexivity; discriminate).
    destruct sx, sy; try reflexivity; try discriminate;
      rewrite (Z.compare_antisym ex ey);
      destruct (ex ?= ey)%Z; cbn; try reflexivity; try discriminate;
      change (PosDef.Pos.compare_cont Eq my mx) with (Pos.compare my mx);
      change (PosDef.Pos.compare_cont Eq mx my) with (Pos.compare mx my);
      rewrite (Pos.compare_antisym mx my);
      destruct (mx ?= my)%positive; cbn; try reflexivity; discriminate.
Qed.

  (** [timeout <= d] leaves [d < timeout] false, so the test
      [not (dt < self._timeout)] fires whenever the elapsed time has reached
      the timeout. *)
Lemma reached_or_exceeded (timeout d : float) :
    (timeout <=? d)%float = true -> (d <? timeout)%float = false.
Proof.
    rewrite FloatAxioms.leb_spec, FloatAxioms.ltb_spec. apply SFcompare_le_not_gt.
Qed.

End FloatOrder.

(** ** Traces *)

Lemma feedbacks_app (a b : list Event) :
  feedbacks (a ++ b) = feedbacks a ++ feedbacks b.
Proof.
  induction a as [|e a IH]; cbn; [reflexivity|].
  destruct e; cbn; rewrite IH; reflexivity.
Qed.

Lemma commands_app (a b : list Event) :
  commands (a ++ b) = commands a ++ commands b.
Proof.
  induction a as [|e a IH]; cbn; [reflexivity|].
  destruct e; cbn; rewrite IH; reflexivity.
Qed.

Lemma successes_app (a b : list Event) :
  successes (a ++ b) = successes a + successes b.
Proof.
  induction a as [|e a IH]; cbn; [reflexivity|].
  destruct e; cbn; rewrite IH; reflexivity.
Qed.

(** ** What the other callbacks leave alone *)

Lemma updates_keep_parameters (ms : list GripperStat.t) (n : Node) :
  _timeout (fold_left _update_gripper_stat ms n) = _timeout n
  /\ _position_tolerance (fold_left _update_gripper_stat ms n)
     = _position_tolerance n
  /\ _gripper_speed (fold_left _update_gripper_stat ms n) = _gripper_speed n.
Proof.
  revert n. induction ms as [|m ms IH]; intro n; cbn; [auto|].
  destruct (IH (_update_gripper_stat n m)) as (H1 & H2 & H3).
  rewrite H1, H2, H3. auto.
Qed.

Lemma cancel_goal_request (r : CancelResponse) (h : GoalHandle) :
  request (cancel_goal r h) = request h.
Proof. destruct h as [q s]. unfold cancel_goal. destruct r, s; reflexivity. Qed.

Lemma cancel_goal_live (r : CancelResponse) (h : GoalHandle) :
  live_or_succeeded (status h) = true ->
  live_or_succeeded (status (cancel_goal r h)) = true.
Proof. destruct h as [q s]. unfold cancel_goal. destruct r, s; cbn; auto. Qed.

Lemma serve_feedback (t : Tick) (fr : Frame) :
  feedback_msg (serve t fr) = feedback_msg fr.
Proof. unfold serve. destruct (cancel_request t); reflexivity. Qed.

Lemma serve_self (t : Tick) (fr : Frame) :
  self (serve t fr) = fold_left _update_gripper_stat (stat_msgs t) (self fr).
Proof. unfold serve. destruct (cancel_request t); reflexivity. Qed.

Lemma serve_request (t : Tick) (fr : Frame) :
  request (goal_handle (serve t fr)) = request (goal_handle fr).
Proof.
  unfold serve. destruct (cancel_request t); [|reflexivity].
  cbn [goal_handle with_handle with_self]. apply cancel_goal_request.
Qed.

(** ** Messages handled while the body runs *)

Lemma last_of_nonempty {A : Type} (l : list A) :
  forall x d d' : A, last (x :: l) d = last (x :: l) d'.
Proof.
  induction l as [|y l IH]; intros x d d'; [reflexivity|].
  change (last (y :: l) d = last (y :: l) d'). apply IH.
Qed.

Lemma updates_latest (ms : list GripperStat.t) :
  forall n : Node,
    _stat (fold_left _update_gripper_stat ms n) = last (map Some ms) (_stat n).
Proof.
  induction ms as [|m ms IH]; intro n; [reflexivity|].
  cbn [fold_left map]. rewrite IH. cbn [_update_gripper_stat _stat].
  destruct ms as [|m' ms]; [reflexivity|].
  cbn [map].
  change (last (Some m :: Some m' :: map Some ms) (_stat n))
    with (last (Some m' :: map Some ms) (_stat n)).
  apply last_of_nonempty.
Qed.

Lemma last_map_some (ms : list GripperStat.t) (stat : GripperStat.t) :
  last (map Some ms) (Some stat) = Some (last ms stat).
Proof.
  induction ms as [|m ms IH]; [reflexivity|].
  destruct ms as [|m' ms]; [reflexivity | exact IH].
Qed.

(** After more messages the attribute holds the last of them, or the
    status it held. *)
Lemma handle_stat (ms : list GripperStat.t) (fr : Frame)
    (stat : GripperStat.t) :
  _stat (self fr) = Some stat ->
  _stat (self (handle ms fr)) = Some (last ms stat).
Proof.
  intro S. unfold handle. cbn [self with_self].
  rewrite updates_latest, S. apply last_map_some.
Qed.

Lemma load_stat (fr : Frame) (stat seen : GripperStat.t) :
  _stat (self fr) = Some stat -> load fr seen = stat.
Proof. intro S. unfold load. rewrite S. reflexivity. Qed.

Lemma handle_parameters (ms : list GripperStat.t) (fr : Frame) :
  _timeout (self (handle ms fr)) = _timeout (self fr)
  /\ _position_tolerance (self (handle ms fr)) = _position_tolerance (self fr)
  /\ _gripper_speed (self (handle ms fr)) = _gripper_speed (self fr).
Proof. apply updates_keep_parameters. Qed.

Lemma handle_app (a b : list GripperStat.t) (fr : Frame) :
  handle b (handle a fr) = handle (a ++ b) fr.
Proof.
  unfold handle. cbn [self with_self goal_handle feedback_msg result_msg dt].
  rewrite fold_left_app. reflexivity.
Qed.

(** The three loads of the body, after a test that found [stat]. *)
Lemma loads (t : Tick) (fr : Frame) (stat seen : GripperStat.t) :
  _stat (self fr) = Some stat ->
  load (handle (before_position t) fr) seen = position_read t stat
  /\ load (handle (before_is_moving t) (handle (before_position t) fr)) seen
     = moving_read t stat
  /\ load (handle (before_obj_detected t)
             (handle (before_is_moving t) (handle (before_position t) fr)))
          seen
     = detect_read t stat.
Proof.
  intro S.
  pose proof (handle_stat (before_position t) fr stat S) as S1.
  pose proof (handle_stat (before_is_moving t) _ _ S1) as S2.
  pose proof (handle_stat (before_obj_detected t) _ _ S2) as S3.
  repeat split; apply load_stat; assumption.
Qed.

Lemma handle_during (t : Tick) (fr : Frame) :
  handle (before_obj_detected t)
    (handle (before_is_moving t) (handle (before_position t) fr))
  = handle (during t) fr.
Proof. rewrite !handle_app. reflexivity. Qed.

(** ** One iteration *)

Section Iteration.

Variable start_time : float.
Variable t : Tick.
Variable fr : Frame.

Let d : float := (get_time (now t) - start_time)%float.

Lemma body_timed_out :
  (d <? _timeout (self fr))%float = false ->
  body start_time t fr
  = ([Log WARN "Gripper timeout reached"], with_dt fr d, TimedOut).
Proof.
  intro H. unfold body. cbn [self with_dt]. fold d. rewrite H. reflexivity.
Qed.

Lemma body_no_status :
  (d <? _timeout (self fr))%float = true ->
  _stat (self fr) = None ->
  body start_time t fr
  = ([Log WARN "No gripper feedback yet"; Sleep],
     handle (during t) (with_dt fr d), Polling).
Proof.
  intros H N. unfold body. cbn [self with_dt]. fold d. rewrite H, N.
  reflexivity.
Qed.

(** The three ways through the loop body, for any frame: the timeout, no
    status, or a status, from which one feedback is built and published.
    The feedback takes its position from the load of line 149, its motion
    flag from the load of line 150, and the test of line 153 takes the
    detection flag from its own load. *)
Lemma body_shape :
  ((d <? _timeout (self fr))%float = false
   /\ body start_time t fr
      = ([Log WARN "Gripper timeout reached"], with_dt fr d, TimedOut))
  \/ ((d <? _timeout (self fr))%float = true
      /\ _stat (self fr) = None
      /\ body start_time t fr
         = ([Log WARN "No gripper feedback yet"; Sleep],
            handle (during t) (with_dt fr d), Polling))
  \/ (exists stat : GripperStat.t,
        let hit := judged (self fr) (goal_handle fr) (position_read t stat)
                     (detect_read t stat) in
        let m := feedback_from (feedback_msg fr) (position_read t stat)
                   (moving_read t stat)
                   (hit || Feedback.reached_goal (feedback_msg fr)) in
        let said := if hit then [Log INFO "Goal achieved: True"] else [] in
        (d <? _timeout (self fr))%float = true
        /\ _stat (self fr) = Some stat
        /\ body start_time t fr
           = if Feedback.reached_goal m
             then (said ++ [PublishFeedback m; Succeed],
                   with_handle
                     (with_feedback (handle (during t) (with_dt fr d)) m)
                     (succeed (goal_handle fr)),
                   Succeeded)
             else (said ++ [PublishFeedback m; Sleep],
                   with_feedback (handle (during t) (with_dt fr d)) m,
                   Polling)).
Proof.
  unfold body. fold d. cbn [self with_dt].
  destruct (d <? _timeout (self fr))%float eqn:D; cbn [negb];
    [|left; split; reflexivity].
  right. destruct (_stat (self fr)) as [stat|] eqn:S;
    [right | left; repeat split; reflexivity].
  exists stat. cbv zeta.
  assert (S0 : _stat (self (with_dt fr d)) = Some stat) by exact S.
  destruct (loads t (with_dt fr d) stat stat S0) as (L1 & L2 & L3).
  destruct (handle_parameters (during t) (with_dt fr d)) as (_ & P3 & _).
  rewrite L1, L2, L3, handle_during.
  set (fr3 := handle (during t) (with_dt fr d)) in *.
  unfold goal_reached.
  cbn [Feedback.position Feedback.set_stalled Feedback.set_position
       Feedback.set_reached_goal].
  change (goal_handle fr3) with (goal_handle fr).
  change (feedback_msg (handle (before_position t) (with_dt fr d)))
    with (feedback_msg fr).
  rewrite P3. cbn [self with_dt].
  change ((fabs (Command.position (Goal.command (request (goal_handle fr)))
                 - GripperStat.position (position_read t stat))
           <? _position_tolerance (self fr))%float
          || GripperStat.obj_detected (detect_read t stat))
    with (judged (self fr) (goal_handle fr) (position_read t stat)
            (detect_read t stat)).
  repeat split.
  destruct (judged (self fr) (goal_handle fr) (position_read t stat)
              (detect_read t stat));
    cbn [orb Feedback.reached_goal Feedback.set_reached_goal
         Feedback.set_stalled Feedback.set_position feedback_from repr app
         String.append];
    [reflexivity|].
  destruct (Feedback.reached_goal (feedback_msg fr)) eqn:U;
    unfold feedback_from; rewrite <- U; destruct (feedback_msg fr); reflexivity.
Qed.

(** The body on a frame whose feedback message does not yet say reached. *)
Lemma body_status (stat : GripperStat.t) :
  (d <? _timeout (self fr))%float = true ->
  _stat (self fr) = Some stat ->
  Feedback.reached_goal (feedback_msg fr) = false ->
  let hit := judged (self fr) (goal_handle fr) (position_read t stat)
               (detect_read t stat) in
  let m := feedback_from (feedback_msg fr) (position_read t stat)
             (moving_read t stat) hit in
  body start_time t fr
  = if hit
    then ([Log INFO "Goal achieved: True"; PublishFeedback m; Succeed],
          with_handle (with_feedback (handle (during t) (with_dt fr d)) m)
                      (succeed (goal_handle fr)),
          Succeeded)
    else ([PublishFeedback m; Sleep],
          with_feedback (handle (during t) (with_dt fr d)) m, Polling).
Proof.
  intros D S U hit m.
  destruct body_shape
    as [[D' _] | [(_ & N & _) | (stat' & _ & S' & B)]];
    [congruence | congruence |].
  assert (stat' = stat) by congruence. subst stat'.
  rewrite B. clear B. rewrite U, orb_false_r. fold hit. fold m.
  change (Feedback.reached_goal m) with hit.
  destruct hit; reflexivity.
Qed.

End Iteration.

(** ** The loop *)

Lemma tracks_entry (self0 : Node) (gh0 : GoalHandle) :
  tracks self0 gh0 (entry self0 gh0).
Proof. split; reflexivity. Qed.

Lemma tracks_serve (self0 : Node) (gh0 : GoalHandle) (t : Tick) (fr : Frame) :
  tracks self0 gh0 fr -> tracks self0 gh0 (serve t fr).
Proof.
  intros [T P G R U].
  destruct (updates_keep_parameters (stat_msgs t) (self fr)) as (K1 & K2 & K3).
  split; rewrite ?serve_self, ?serve_request, ?serve_feedback; congruence.
Qed.

Lemma tracks_handle (self0 : Node) (gh0 : GoalHandle)
    (ms : list GripperStat.t) (fr : Frame) :
  tracks self0 gh0 fr -> tracks self0 gh0 (handle ms fr).
Proof.
  intros [T P G R U].
  destruct (handle_parameters ms fr) as (K1 & K2 & K3).
  split; [congruence | congruence | congruence | exact R | exact U].
Qed.

Lemma tracks_body (self0 : Node) (gh0 : GoalHandle) (start_time : float)
    (t : Tick) (fr fr' : Frame) (evs : list Event) :
  tracks self0 gh0 fr ->
  body start_time t fr = (evs, fr', Polling) ->
  tracks self0 gh0 fr'.
Proof.
  intros K B.
  assert (K1 : tracks self0 gh0
                 (handle (during t)
                    (with_dt fr (get_time (now t) - start_time)%float)))
    by (apply tracks_handle; destruct K as [T P G R U]; split; assumption).
  destruct ((get_time (now t) - start_time <? _timeout (self fr))%float) eqn:D.
  - destruct (_stat (self fr)) as [stat|] eqn:S.
    + rewrite (body_status start_time t fr stat D S (unreached _ _ _ K)) in B.
      destruct (judged (self fr) (goal_handle fr) (position_read t stat)
                  (detect_read t stat)); [discriminate|].
      inversion B; subst. destruct K1 as [T P G R U].
      split; assumption || reflexivity.
    + rewrite (body_no_status start_time t fr D S) in B.
      inversion B; subst. exact K1.
  - rewrite (body_timed_out start_time t fr D) in B. discriminate.
Qed.

Lemma while_ok_cons (start_time : float) (t : Tick) (ts : list Tick)
    (fr : Frame) :
  while_ok start_time (t :: ts) fr
  = if ok t then
      match body start_time t (serve t fr) with
      | (evs, fr', Polling) =>
          let '(evs', fr'', s) := while_ok start_time ts fr' in
          (evs ++ evs', fr'', s)
      | r => r
      end
    else ([], serve t fr, Shutdown).
Proof. reflexivity. Qed.

Lemma tracks_while (self0 : Node) (gh0 : GoalHandle) (start_time : float)
    (ts : list Tick) :
  forall (fr fr' : Frame) (evs : list Event),
    tracks self0 gh0 fr ->
    while_ok start_time ts fr = (evs, fr', Polling) ->
    tracks self0 gh0 fr'.
Proof.
  induction ts as [|t ts IH]; intros fr fr' evs K W.
  - inversion W; subst. assumption.
  - rewrite while_ok_cons in W.
    destruct (ok t); [|discriminate].
    destruct (body start_time t (serve t fr)) as [[e1 f1] s1] eqn:B.
    destruct s1; try discriminate.
    destruct (while_ok start_time ts f1) as [[e2 f2] s2] eqn:W2.
    inversion W; subst.
    eapply IH; [|exact W2].
    eapply tracks_body; [|exact B]. apply tracks_serve. assumption.
Qed.

(** Running a prefix that leaves the loop polling, then the rest. *)
Lemma while_ok_app (start_time : float) (pre post : list Tick) :
  forall (fr fr' : Frame) (evs : list Event),
    while_ok start_time pre fr = (evs, fr', Polling) ->
    while_ok start_time (pre ++ post) fr
    = let '(evs', fr'', s) := while_ok start_time post fr' in
      (evs ++ evs', fr'', s).
Proof.
  induction pre as [|t pre IH]; intros fr fr' evs W.
  - inversion W; subst. cbn [app].
    destruct (while_ok start_time post fr') as [[e f] s]. reflexivity.
  - rewrite <- app_comm_cons, while_ok_cons. rewrite while_ok_cons in W.
    destruct (ok t); [|discriminate].
    destruct (body start_time t (serve t fr)) as [[e1 f1] s1] eqn:B.
    destruct s1; try discriminate.
    destruct (while_ok start_time pre f1) as [[e2 f2] s2] eqn:W2.
    inversion W; subst.
    rewrite (IH f1 fr' e2 W2).
    destruct (while_ok start_time post fr') as [[e3 f3] s3].
    rewrite app_assoc. reflexivity.
Qed.

(** The loop after one more iteration. *)
Lemma while_ok_snoc (start_time : float) (pre : list Tick) (t : Tick)
    (fr fr' : Frame) (evs : list Event) :
  while_ok start_time pre fr = (evs, fr', Polling) ->
  ok t = true ->
  while_ok start_time (pre ++ [t]) fr
  = let '(evs', fr'', s) := body start_time t (serve t fr') in
    (evs ++ evs', fr'', s).
Proof.
  intros W O. rewrite (while_ok_app start_time pre [t] fr fr' evs W).
  rewrite while_ok_cons, O.
  destruct (body start_time t (serve t fr')) as [[e f] s].
  destruct s; cbn; rewrite ?app_nil_r; reflexivity.
Qed.

(** A loop that has left [Polling] does not look at later iterations. *)
Lemma while_ok_stops (start_time : float) (pre post : list Tick) :
  forall (fr fr' : Frame) (evs : list Event) (s : LoopState),
    while_ok start_time pre fr = (evs, fr', s) ->
    s <> Polling ->
    while_ok start_time (pre ++ post) fr = (evs, fr', s).
Proof.
  induction pre as [|t pre IH]; intros fr fr' evs s W N.
  - inversion W; subst. congruence.
  - rewrite <- app_comm_cons, while_ok_cons. rewrite while_ok_cons in W.
    destruct (ok t); [|exact W].
    destruct (body start_time t (serve t fr)) as [[e1 f1] s1] eqn:B.
    destruct s1; try exact W.
    destruct (while_ok start_time pre f1) as [[e2 f2] s2] eqn:W2.
    inversion W; subst.
    rewrite (IH f1 fr' e2 s W2 N). reflexivity.
Qed.

Lemma judged_tracks (self0 : Node) (gh0 : GoalHandle) (fr : Frame)
    (sp so : GripperStat.t) :
  tracks self0 gh0 fr ->
  judged (self fr) (goal_handle fr) sp so = judged self0 gh0 sp so.
Proof.
  intros [T P G R U]. unfold judged. rewrite P, R. reflexivity.
Qed.

(** With no message in between, the loads see the status of the test. *)
Lemma reads_without_messages (t : Tick) (stat : GripperStat.t) :
  during t = [] ->
  position_read t stat = stat
  /\ moving_read t stat = stat
  /\ detect_read t stat = stat.
Proof.
  unfold detect_read, moving_read, position_read, during. intro E.
  apply app_eq_nil in E. destruct E as [E1 E].
  apply app_eq_nil in E. destruct E as [E2 E3].
  rewrite E1, E2, E3. cbn. repeat split; reflexivity.
Qed.

(** An iteration that finds a status, seen from the call: the frame [fr]
    is the one the loop has reached after the iterations [pre]. *)
Lemma polling_tick_with_status (self0 : Node) (gh0 : GoalHandle)
    (start_time : float) (pre : list Tick) (t : Tick) (evs : list Event)
    (fr : Frame) (stat : GripperStat.t) :
  while_ok start_time pre (entry self0 gh0) = (evs, fr, Polling) ->
  ok t = true ->
  (get_time (now t) - start_time <? _timeout self0)%float = true ->
  _stat (self (serve t fr)) = Some stat ->
  let hit := judged self0 gh0 (position_read t stat) (detect_read t stat) in
  let m := feedback_from (feedback_msg fr) (position_read t stat)
             (moving_read t stat) hit in
  let fr1 := with_feedback
               (handle (during t)
                  (with_dt (serve t fr) (get_time (now t) - start_time)%float))
               m in
  while_ok start_time (pre ++ [t]) (entry self0 gh0)
  = if hit
    then (evs ++ [Log INFO "Goal achieved: True"; PublishFeedback m; Succeed],
          with_handle fr1 (succeed (goal_handle (serve t fr))), Succeeded)
    else (evs ++ [PublishFeedback m; Sleep], fr1, Polling).
Proof.
  intros W O D S hit m fr1.
  pose proof (tracks_serve self0 gh0 t fr
                (tracks_while self0 gh0 start_time pre _ _ _
                   (tracks_entry self0 gh0) W)) as K.
  rewrite (while_ok_snoc start_time pre t _ fr evs W O).
  rewrite <- (same_timeout _ _ _ K) in D.
  rewrite (body_status start_time t (serve t fr) stat D S (unreached _ _ _ K)).
  rewrite (judged_tracks self0 gh0 (serve t fr) _ _ K).
  rewrite serve_feedback. fold hit. fold m. fold fr1.
  destruct hit; reflexivity.
Qed.

(** ** The claims *)

(** C1, as the code has it.  On a polling tick where a status is present
    (the loop has reached the tick, [rclpy.ok()] holds and the timeout test
    passes), the feedback says [reached_goal] exactly when the distance
    between the goal's target and the position the body loaded is below the
    tolerance, or the status held when the body loads [obj_detected]
    reports a detected object.  When that holds the tick publishes the
    feedback, calls [goal_handle.succeed()] and leaves the loop in
    [Succeeded]; when it does not, the tick has no [Succeed] event and the
    loop stays [Polling].  When no message is handled while the body runs,
    both loads see the status that was present, and the condition is the
    one of the specification. *)
Theorem judgement_decides_success (self0 : Node) (gh0 : GoalHandle)
    (start_time : float) (pre : list Tick) (t : Tick) (evs : list Event)
    (fr : Frame) (stat : GripperStat.t) :
  while_ok start_time pre (entry self0 gh0) = (evs, fr, Polling) ->
  ok t = true ->
  (get_time (now t) - start_time <? _timeout self0)%float = true ->
  _stat (self (serve t fr)) = Some stat ->
  exists (m : Feedback.t) (tick_evs : list Event) (fr' : Frame) (s : LoopState),
    while_ok start_time (pre ++ [t]) (entry self0 gh0)
    = (evs ++ tick_evs, fr', s)
    /\ feedbacks tick_evs = [m]
    /\ Feedback.reached_goal m
       = judged self0 gh0 (position_read t stat) (detect_read t stat)
    /\ successes tick_evs
       = (if judged self0 gh0 (position_read t stat) (detect_read t stat)
          then 1 else 0)
    /\ s = (if judged self0 gh0 (position_read t stat) (detect_read t stat)
            then Succeeded else Polling)
    /\ (judged self0 gh0 (position_read t stat) (detect_read t stat) = true ->
        status (goal_handle fr') = STATUS_SUCCEEDED)
    /\ (judged self0 gh0 (position_read t stat) (detect_read t stat) = false ->
        status (goal_handle fr') = status (goal_handle (serve t fr)))
    /\ (during t = [] ->
        judged self0 gh0 (position_read t stat) (detect_read t stat)
        = reached self0 gh0 stat).
Proof.
  intros W O D S.
  pose proof (polling_tick_with_status self0 gh0 start_time pre t evs fr stat
                W O D S) as E.
  cbv zeta in E. rewrite E.
  assert (Q : during t = [] ->
              judged self0 gh0 (position_read t stat) (detect_read t stat)
              = reached self0 gh0 stat).
  { intro N. destruct (reads_without_messages t stat N) as (-> & _ & ->).
    reflexivity. }
  destruct (judged self0 gh0 (position_read t stat) (detect_read t stat));
    eexists _, _, _, _;
    (split; [reflexivity|]); cbn;
    repeat split; try reflexivity; try discriminate; exact Q.
Qed.

(** C7, as the code has it.  On a polling tick where a status is present
    exactly one feedback message is published; its position is the position
    of the status held when the body loads [self._stat.position] and its
    [stalled] flag is the negation of [is_moving] of the status held when
    the body loads [self._stat.is_moving].  When no message is handled
    between the test and these loads, both are the status that was
    present. *)
Theorem one_feedback_per_status (self0 : Node) (gh0 : GoalHandle)
    (start_time : float) (pre : list Tick) (t : Tick) (evs : list Event)
    (fr : Frame) (stat : GripperStat.t) :
  while_ok start_time pre (entry self0 gh0) = (evs, fr, Polling) ->
  ok t = true ->
  (get_time (now t) - start_time <? _timeout self0)%float = true ->
  _stat (self (serve t fr)) = Some stat ->
  exists (m : Feedback.t) (tick_evs : list Event) (fr' : Frame) (s : LoopState),
    while_ok start_time (pre ++ [t]) (entry self0 gh0)
    = (evs ++ tick_evs, fr', s)
    /\ feedbacks tick_evs = [m]
    /\ Feedback.position m = GripperStat.position (position_read t stat)
    /\ Feedback.stalled m = negb (GripperStat.is_moving (moving_read t stat))
    /\ (before_position t = [] -> before_is_moving t = [] ->
        Feedback.position m = GripperStat.position stat
        /\ Feedback.stalled m = negb (GripperStat.is_moving stat)).
Proof.
  intros W O D S.
  pose proof (polling_tick_with_status self0 gh0 start_time pre t evs fr stat
                W O D S) as E.
  cbv zeta in E. rewrite E.
  destruct (judged self0 gh0 (position_read t stat) (detect_read t stat));
    eexists _, _, _, _;
    (split; [reflexivity|]); cbn;
    repeat split; try reflexivity;
    unfold moving_read, position_read; rewrite ?H, ?H0; reflexivity.
Qed.

(** The iterations [Scenario.far] leave the loop polling, with one feedback
    published. *)
Lemma far_is_polling :
  while_ok Scenario.start_time Scenario.far
    (entry Scenario.node Scenario.handle)
  = (Scenario.far_events, Scenario.far_frame, Polling).
Proof. vm_compute. reflexivity. Qed.

(** C1 at an iteration where the gripper has stopped on an object away from
    the target: the goal is judged reached and succeeds on that iteration. *)
Lemma judgement_decides_success_witness :
  reached Scenario.node Scenario.handle (Scenario.stat 0.02 false true) = true
  /\ exists (m : Feedback.t) (tick_evs : list Event) (fr' : Frame),
       while_ok Scenario.start_time (Scenario.far ++ [Scenario.grasp])
         (entry Scenario.node Scenario.handle)
       = (Scenario.far_events ++ tick_evs, fr', Succeeded)
       /\ feedbacks tick_evs = [m]
       /\ Feedback.reached_goal m = true
       /\ successes tick_evs = 1
       /\ status (goal_handle fr') = STATUS_SUCCEEDED.
Proof.
  split; [reflexivity|].
  destruct (judgement_decides_success Scenario.node Scenario.handle
              Scenario.start_time Scenario.far Scenario.grasp
              Scenario.far_events Scenario.far_frame
              (Scenario.stat 0.02 false true)
              far_is_polling eq_refl eq_refl eq_refl)
    as (m & tick_evs & fr' & s & W & F & R & N & S & Y & _).
  exists m, tick_evs, fr'. rewrite W, S.
  repeat split; [exact F | exact R | exact N | exact (Y eq_refl)].
Defined.

(** C1 as the specification states it fails.  The status present at the
    test, an object detected at 0.02 m, satisfies the condition, and so does
    the status that replaces it before the motion flag is loaded, the
    gripper on the target at 0.04 m; but the body takes the position of the
    first and the detection flag of the second, publishes a feedback that
    does not say reached and goes on polling. *)
Lemma reached_but_not_judged :
  _stat (self (serve Cases.torn (entry Scenario.node Scenario.handle)))
  = Some Cases.caught
  /\ reached Scenario.node Scenario.handle Cases.caught = true
  /\ reached Scenario.node Scenario.handle Cases.arrived = true
  /\ exists fr : Frame,
       while_ok Scenario.start_time [Cases.torn]
         (entry Scenario.node Scenario.handle)
       = ([PublishFeedback
             {| Feedback.position := 0.02; Feedback.effort := 0;
                Feedback.stalled := true; Feedback.reached_goal := false |};
           Sleep], fr, Polling).
Proof.
  split; [reflexivity|].
  split; [vm_compute; reflexivity|].
  split; [vm_compute; reflexivity|].
  eexists. vm_compute. reflexivity.
Qed.

(** C7 at an iteration where the gripper is at 0.038 m and moving. *)
Lemma one_feedback_per_status_witness :
  exists (m : Feedback.t) (tick_evs : list Event) (fr' : Frame) (s : LoopState),
    while_ok Scenario.start_time (Scenario.far ++ [Scenario.near])
      (entry Scenario.node Scenario.handle)
    = (Scenario.far_events ++ tick_evs, fr', s)
    /\ feedbacks tick_evs = [m]
    /\ Feedback.position m = 0.038%float
    /\ Feedback.stalled m = false.
Proof.
  destruct (one_feedback_per_status Scenario.node Scenario.handle
              Scenario.start_time Scenario.far Scenario.near
              Scenario.far_events Scenario.far_frame
              (Scenario.stat 0.038 true false)
              far_is_polling eq_refl eq_refl eq_refl)
    as (m & tick_evs & fr' & s & W & F & _ & _ & Q).
  destruct (Q eq_refl eq_refl) as [P M].
  exists m, tick_evs, fr', s. repeat split; assumption.
Defined.

(** C7 as the specification states it fails.  The feedback of the iteration
    has the position of the status present at the test, 0.02 m, and the
    [stalled] flag of the status that replaced it, a stopped gripper: no
    status the node held has both that position and that motion flag. *)
Lemma feedback_of_two_statuses :
  _stat (self (serve Cases.torn (entry Scenario.node Scenario.handle)))
  = Some Cases.caught
  /\ (exists fr : Frame,
     while_ok Scenario.start_time [Cases.torn]
       (entry Scenario.node Scenario.handle)
     = ([PublishFeedback
           {| Feedback.position := GripperStat.position Cases.caught;
              Feedback.effort := 0;
              Feedback.stalled := negb (GripperStat.is_moving Cases.arrived);
              Feedback.reached_goal := false |};
         Sleep], fr, Polling))
  /\ negb (GripperStat.is_moving Cases.arrived)
     <> negb (GripperStat.is_moving Cases.caught)
  /\ (GripperStat.position Cases.caught
      =? GripperStat.position Cases.arrived)%float = false.
Proof.
  split; [reflexivity|].
  split; [eexists; vm_compute; reflexivity|].
  split; [discriminate | vm_compute; reflexivity].
Qed.

(** The loop sends nothing to the gripper. *)
Lemma body_commands (start_time : float) (t : Tick) (fr : Frame) :
  commands (fst (fst (body start_time t fr))) = [].
Proof.
  destruct (body_shape start_time t fr)
    as [[_ B] | [(_ & _ & B) | (stat & _ & _ & B)]];
    rewrite B; try reflexivity.
  destruct (Feedback.reached_goal _); cbn [fst]; rewrite commands_app;
    destruct (judged _ _ _ _); reflexivity.
Qed.

Lemma while_ok_commands (start_time : float) (ts : list Tick) :
  forall fr : Frame, commands (fst (fst (while_ok start_time ts fr))) = [].
Proof.
  induction ts as [|t ts IH]; intro fr; [reflexivity|].
  rewrite while_ok_cons. destruct (ok t); [|reflexivity].
  pose proof (body_commands start_time t (serve t fr)) as B.
  destruct (body start_time t (serve t fr)) as [[e1 f1] s1].
  cbn [fst] in B.
  destruct s1; try exact B.
  specialize (IH f1).
  destruct (while_ok start_time ts f1) as [[e2 f2] s2].
  cbn [fst] in *. rewrite commands_app, B, IH. reflexivity.
Qed.

(** C5.  Whatever the iterations, the execute callback sends exactly one
    command to the gripper.  It carries the goal's position, the goal's
    maximal effort as force and the node's configured speed, and it comes
    before every event of the polling loop. *)
Theorem one_command_before_polling (self0 : Node) (gh0 : GoalHandle)
    (w : World) :
  exists (c : GripperCmd.t) (after_loop : list Event),
    events_of (_execute_callback self0 gh0 w)
    = [Log INFO "Gripper executing goal..."; Publish c; ThreadStart]
      ++ fst (fst (while_ok (get_time (start w)) (ticks w) (entry self0 gh0)))
      ++ after_loop
    /\ commands (events_of (_execute_callback self0 gh0 w)) = [c]
    /\ GripperCmd.position c
       = Command.position (Goal.command (request gh0))
    /\ GripperCmd.force c
       = Command.max_effort (Goal.command (request gh0))
    /\ GripperCmd.speed c = _gripper_speed self0.
Proof.
  pose proof (while_ok_commands (get_time (start w)) (ticks w)
                (entry self0 gh0)) as C.
  unfold _execute_callback, events_of.
  destruct (while_ok (get_time (start w)) (ticks w) (entry self0 gh0))
    as [[evs fr] s].
  cbn [fst] in C.
  exists (cmd_msg self0 gh0).
  destruct s;
    [exists [] | exists [ThreadJoin] | exists [ThreadJoin] | exists [ThreadJoin]];
    cbn [fst snd]; rewrite ?app_nil_r;
    (split; [reflexivity|]);
    (split; [cbn [app commands]; rewrite ?commands_app, C; reflexivity|]);
    repeat split; reflexivity.
Qed.

(** Iterations without a status, before the timeout. *)
Lemma silence_keeps_polling (self0 : Node) (gh0 : GoalHandle)
    (start_time : float) (ts : list Tick) :
  forall fr : Frame,
    tracks self0 gh0 fr ->
    _stat (self fr) = None ->
    (forall t, In t ts ->
       arrivals t = [] /\ ok t = true
       /\ (get_time (now t) - start_time <? _timeout self0)%float = true) ->
    exists fr' : Frame,
      while_ok start_time ts fr
      = (flat_map (fun _ => [Log WARN "No gripper feedback yet"; Sleep]) ts,
         fr', Polling).
Proof.
  induction ts as [|t ts IH]; intros fr K N H.
  - exists fr. reflexivity.
  - destruct (H t (or_introl eq_refl)) as (A & O & D).
    apply app_eq_nil in A. destruct A as [M Du].
    assert (S : self (serve t fr) = self fr)
      by (rewrite serve_self, M; reflexivity).
    pose proof (tracks_serve self0 gh0 t fr K) as K'.
    rewrite <- (same_timeout _ _ _ K') in D.
    rewrite while_ok_cons, O.
    rewrite (body_no_status start_time t (serve t fr) D)
      by (rewrite S; exact N).
    rewrite Du.
    destruct (IH (handle []
                    (with_dt (serve t fr)
                       (get_time (now t) - start_time)%float)))
      as [fr' W].
    + apply tracks_handle. destruct K' as [T P G R U]. split; assumption.
    + cbn [self with_dt handle with_self fold_left]. rewrite S. exact N.
    + intros t' I. apply H. right. exact I.
    + rewrite W. exists fr'. reflexivity.
Qed.

Lemma feedbacks_silence (ts : list Tick) :
  feedbacks (flat_map (fun _ => [Log WARN "No gripper feedback yet"; Sleep]) ts)
  = [].
Proof. induction ts as [|t ts IH]; [reflexivity | exact IH]. Qed.

(** C6.  When no status has ever arrived and none arrives, the iterations
    that come before the timeout (with [rclpy.ok()] true) each log a warning
    and sleep: no feedback is published, no exception is raised and the
    callback is still in its loop after them. *)
Theorem no_status_keeps_polling (self0 : Node) (gh0 : GoalHandle) (w : World) :
  _stat self0 = None ->
  (forall t, In t (ticks w) ->
     arrivals t = [] /\ ok t = true
     /\ (get_time (now t) - get_time (start w) <? _timeout self0)%float = true) ->
  events_of (_execute_callback self0 gh0 w)
  = [Log INFO "Gripper executing goal..."; Publish (cmd_msg self0 gh0);
     ThreadStart]
    ++ flat_map (fun _ => [Log WARN "No gripper feedback yet"; Sleep]) (ticks w)
  /\ feedbacks (events_of (_execute_callback self0 gh0 w)) = []
  /\ outcome_of (_execute_callback self0 gh0 w) = Looping.
Proof.
  intros N H.
  destruct (silence_keeps_polling self0 gh0 (get_time (start w)) (ticks w)
              (entry self0 gh0) (tracks_entry self0 gh0) N H) as [fr' W].
  unfold _execute_callback, events_of, outcome_of. rewrite W. cbn [fst snd].
  repeat split.
  cbn [app feedbacks]. apply feedbacks_silence.
Qed.

(** C6 on three iterations of the default node without any status. *)
Lemma no_status_keeps_polling_witness :
  events_of (_execute_callback Scenario.node Scenario.handle Scenario.silent)
  = [Log INFO "Gripper executing goal...";
     Publish (cmd_msg Scenario.node Scenario.handle); ThreadStart]
    ++ flat_map (fun _ => [Log WARN "No gripper feedback yet"; Sleep])
         (ticks Scenario.silent)
  /\ feedbacks
       (events_of (_execute_callback Scenario.node Scenario.handle
                     Scenario.silent)) = []
  /\ outcome_of (_execute_callback Scenario.node Scenario.handle
                   Scenario.silent) = Looping.
Proof.
  apply (no_status_keeps_polling Scenario.node Scenario.handle Scenario.silent).
  - reflexivity.
  - intros t I. cbn in I.
    destruct I as [<-|[<-|[<-|[]]]]; repeat split; vm_compute; reflexivity.
Defined.

(** C8.  The goal callback accepts every goal request, whatever its position
    and effort, and the cancel callback accepts every cancel request. *)
Theorem requests_always_accepted (self0 : Node) (goal_request : Goal.t)
    (gh : GoalHandle) :
  snd (_goal_callback self0 goal_request) = GoalResponse_ACCEPT
  /\ snd (_cancel_callback self0 gh) = CancelResponse_ACCEPT.
Proof. split; reflexivity. Qed.

(** While the loop is polling nothing has succeeded and every feedback
    published so far says that the goal is not reached. *)
Lemma body_polling_events (self0 : Node) (gh0 : GoalHandle)
    (start_time : float) (t : Tick) (fr fr' : Frame) (evs : list Event) :
  tracks self0 gh0 fr ->
  body start_time t fr = (evs, fr', Polling) ->
  successes evs = 0
  /\ Forall (fun m => Feedback.reached_goal m = false) (feedbacks evs).
Proof.
  intros [T P G R U] B.
  destruct ((get_time (now t) - start_time <? _timeout (self fr))%float) eqn:D.
  - destruct (_stat (self fr)) as [stat|] eqn:S.
    + rewrite (body_status start_time t fr stat D S U) in B.
      destruct (judged (self fr) (goal_handle fr) (position_read t stat)
                  (detect_read t stat)); [discriminate|].
      inversion B; subst. split; [reflexivity|].
      cbn. constructor; [reflexivity | constructor].
    + rewrite (body_no_status start_time t fr D S) in B.
      inversion B; subst. split; [reflexivity | constructor].
  - rewrite (body_timed_out start_time t fr D) in B. discriminate.
Qed.

Lemma polling_events (self0 : Node) (gh0 : GoalHandle) (start_time : float)
    (ts : list Tick) :
  forall (fr fr' : Frame) (evs : list Event),
    tracks self0 gh0 fr ->
    while_ok start_time ts fr = (evs, fr', Polling) ->
    successes evs = 0
    /\ Forall (fun m => Feedback.reached_goal m = false) (feedbacks evs).
Proof.
  induction ts as [|t ts IH]; intros fr fr' evs K W.
  - inversion W; subst. split; [reflexivity | constructor].
  - rewrite while_ok_cons in W.
    destruct (ok t); [|discriminate].
    destruct (body start_time t (serve t fr)) as [[e1 f1] s1] eqn:B.
    destruct s1; try discriminate.
    destruct (while_ok start_time ts f1) as [[e2 f2] s2] eqn:W2.
    inversion W; subst.
    pose proof (tracks_serve self0 gh0 t fr K) as K1.
    destruct (body_polling_events self0 gh0 start_time t _ _ _ K1 B)
      as [S1 F1].
    destruct (IH f1 fr' e2 (tracks_body self0 gh0 start_time t _ _ _ K1 B) W2)
      as [S2 F2].
    rewrite successes_app, feedbacks_app, S1, S2.
    split; [reflexivity | apply Forall_app; split; assumption].
Qed.

(** The iteration whose timeout test fails ends the loop: it logs the
    warning, publishes nothing, and later iterations are not run.  The
    test fails in particular when the elapsed time equals or exceeds the
    timeout ([reached_or_exceeded]). *)
Lemma timeout_stops_polling (self0 : Node) (gh0 : GoalHandle)
    (start_time : float) (pre post : list Tick) (t : Tick)
    (evs : list Event) (fr : Frame) :
  while_ok start_time pre (entry self0 gh0) = (evs, fr, Polling) ->
  ok t = true ->
  (get_time (now t) - start_time <? _timeout self0)%float = false ->
  while_ok start_time (pre ++ t :: post) (entry self0 gh0)
  = (evs ++ [Log WARN "Gripper timeout reached"],
     with_dt (serve t fr) (get_time (now t) - start_time)%float, TimedOut)
  /\ Feedback.reached_goal (feedback_msg fr) = false.
Proof.
  intros W O D.
  pose proof (tracks_while self0 gh0 start_time pre _ _ _
                (tracks_entry self0 gh0) W) as K0.
  pose proof (tracks_serve self0 gh0 t fr K0) as K.
  split; [|exact (unreached _ _ _ K0)].
  change (t :: post) with ([t] ++ post). rewrite app_assoc.
  apply while_ok_stops; [|discriminate].
  rewrite (while_ok_snoc start_time pre t _ fr evs W O).
  rewrite <- (same_timeout _ _ _ K) in D.
  rewrite (body_timed_out start_time t (serve t fr) D). reflexivity.
Qed.

(** The iteration that finds the goal reached ends the loop as well. *)
Lemma success_stops_polling (self0 : Node) (gh0 : GoalHandle)
    (start_time : float) (pre post : list Tick) (t : Tick)
    (evs : list Event) (fr : Frame) (stat : GripperStat.t) :
  while_ok start_time pre (entry self0 gh0) = (evs, fr, Polling) ->
  ok t = true ->
  (get_time (now t) - start_time <? _timeout self0)%float = true ->
  _stat (self (serve t fr)) = Some stat ->
  judged self0 gh0 (position_read t stat) (detect_read t stat) = true ->
  let m := feedback_from (feedback_msg fr) (position_read t stat)
             (moving_read t stat) true in
  while_ok start_time (pre ++ t :: post) (entry self0 gh0)
  = (evs ++ [Log INFO "Goal achieved: True"; PublishFeedback m; Succeed],
     with_handle
       (with_feedback
          (handle (during t)
             (with_dt (serve t fr) (get_time (now t) - start_time)%float)) m)
       (succeed (goal_handle (serve t fr))),
     Succeeded).
Proof.
  intros W O D S R m.
  change (t :: post) with ([t] ++ post). rewrite app_assoc.
  apply while_ok_stops; [|discriminate].
  pose proof (polling_tick_with_status self0 gh0 start_time pre t evs fr stat
                W O D S) as E.
  cbv zeta in E. rewrite R in E. exact E.
Qed.

(** C10.  On the first iteration that finds the goal reached, the feedback
    with [reached_goal = True] is published, then the goal is marked
    succeeded, and the loop is left on that iteration: the only event that
    follows is [thread.join()].  Every feedback published before says that
    the goal is not reached.  After the iteration that times out, too,
    nothing is published: the warning is followed by [thread.join()] only. *)
Theorem feedback_precedes_success (self0 : Node) (gh0 : GoalHandle) (w : World)
    (pre post : list Tick) (t : Tick) (evs : list Event) (fr : Frame) :
  ticks w = pre ++ t :: post ->
  while_ok (get_time (start w)) pre (entry self0 gh0) = (evs, fr, Polling) ->
  ok t = true ->
  successes evs = 0
  /\ Forall (fun m => Feedback.reached_goal m = false) (feedbacks evs)
  /\ (forall stat : GripperStat.t,
        (get_time (now t) - get_time (start w) <? _timeout self0)%float = true ->
        _stat (self (serve t fr)) = Some stat ->
        judged self0 gh0 (position_read t stat) (detect_read t stat) = true ->
        events_of (_execute_callback self0 gh0 w)
        = [Log INFO "Gripper executing goal..."; Publish (cmd_msg self0 gh0);
           ThreadStart]
          ++ evs
          ++ [Log INFO "Goal achieved: True";
              PublishFeedback
                (feedback_from (feedback_msg fr) (position_read t stat)
                   (moving_read t stat) true);
              Succeed; ThreadJoin])
  /\ ((get_time (now t) - get_time (start w) <? _timeout self0)%float = false ->
      events_of (_execute_callback self0 gh0 w)
      = [Log INFO "Gripper executing goal..."; Publish (cmd_msg self0 gh0);
         ThreadStart]
        ++ evs ++ [Log WARN "Gripper timeout reached"; ThreadJoin]).
Proof.
  intros T W O.
  destruct (polling_events self0 gh0 (get_time (start w)) pre _ _ _
              (tracks_entry self0 gh0) W) as [S F].
  repeat split; try assumption.
  - intros stat D St R.
    pose proof (success_stops_polling self0 gh0 (get_time (start w)) pre post
                  t evs fr stat W O D St R) as E.
    cbv zeta in E.
    unfold _execute_callback, events_of. rewrite T, E. cbn [fst snd].
    rewrite <- app_assoc. reflexivity.
  - intro D.
    destruct (timeout_stops_polling self0 gh0 (get_time (start w)) pre post
                t evs fr W O D) as [E _].
    unfold _execute_callback, events_of. rewrite T, E. cbn [fst snd].
    rewrite <- app_assoc. reflexivity.
Qed.

(** C10 on an approach that ends within tolerance, and on a gripper that
    stays away from the target until the timeout: in both, later iterations
    were observed and left no event. *)
Lemma feedback_precedes_success_witness :
  events_of (_execute_callback Scenario.node Scenario.handle Scenario.approach)
  = [Log INFO "Gripper executing goal...";
     Publish (cmd_msg Scenario.node Scenario.handle); ThreadStart]
    ++ Scenario.far_events
    ++ [Log INFO "Goal achieved: True";
        PublishFeedback
          (feedback_of (feedback_msg Scenario.far_frame)
             (Scenario.stat 0.038 true false) true);
        Succeed; ThreadJoin]
  /\ events_of (_execute_callback Scenario.node Scenario.handle Scenario.stuck)
     = [Log INFO "Gripper executing goal...";
        Publish (cmd_msg Scenario.node Scenario.handle); ThreadStart]
       ++ Scenario.far_events
       ++ [Log WARN "Gripper timeout reached"; ThreadJoin].
Proof.
  split.
  - refine (proj1 (proj2 (proj2
              (feedback_precedes_success Scenario.node Scenario.handle
                 Scenario.approach Scenario.far Scenario.afterwards
                 Scenario.near Scenario.far_events Scenario.far_frame
                 eq_refl far_is_polling eq_refl)))
              (Scenario.stat 0.038 true false) _ _ _);
      vm_compute; reflexivity.
  - refine (proj2 (proj2 (proj2
              (feedback_precedes_success Scenario.node Scenario.handle
                 Scenario.stuck Scenario.far Scenario.afterwards
                 Scenario.late Scenario.far_events Scenario.far_frame
                 eq_refl far_is_polling eq_refl))) _);
      vm_compute; reflexivity.
Defined.


(** ** Cancel requests *)

(** Closes the three parts of a comparison of two runs: same events, same
    state of the loop, frames alike. *)
Ltac alike_trio :=
  split; [|split]; cbn [fst snd];
  solve [ reflexivity | assumption
        | unfold alike; cbn; repeat split; assumption ].

Lemma alike_serve (t : Tick) (a b : Frame) :
  alike a b -> alike (serve t a) (serve (without_cancel t) b).
Proof.
  intros (S & F & R & D & Q).
  unfold alike. rewrite !serve_self, !serve_feedback, !serve_request.
  cbn [stat_msgs without_cancel]. rewrite S.
  repeat split; try assumption.
  - unfold serve. destruct (cancel_request t); cbn; assumption.
  - unfold serve. destruct (cancel_request t); cbn; assumption.
Qed.

Lemma alike_body (start_time : float) (t : Tick) (a b : Frame) :
  alike a b ->
  fst (fst (body start_time t a))
  = fst (fst (body start_time (without_cancel t) b))
  /\ snd (body start_time t a) = snd (body start_time (without_cancel t) b)
  /\ alike (snd (fst (body start_time t a)))
           (snd (fst (body start_time (without_cancel t) b))).
Proof.
  destruct a as [n h f r d], b as [n' h' f' r' d'].
  intros (S & F & R & D & Q). cbn in S, F, R, D, Q. subst n' f' r' d'.
  unfold body, goal_reached, handle, load, during.
  cbn [self with_dt with_self feedback_msg goal_handle result_msg dt now
       without_cancel with_feedback before_position before_is_moving
       before_obj_detected].
  rewrite Q.
  destruct (negb _); [alike_trio|].
  destruct (_stat n) as [stat|]; [|alike_trio].
  destruct (_ || _);
    cbn [Feedback.reached_goal Feedback.set_reached_goal Feedback.set_stalled
         Feedback.set_position];
    [alike_trio|].
  destruct (Feedback.reached_goal f); alike_trio.
Qed.

Lemma alike_while (start_time : float) (ts : list Tick) :
  forall a b : Frame,
    alike a b ->
    fst (fst (while_ok start_time ts a))
    = fst (fst (while_ok start_time (map without_cancel ts) b))
    /\ snd (while_ok start_time ts a)
       = snd (while_ok start_time (map without_cancel ts) b)
    /\ alike (snd (fst (while_ok start_time ts a)))
             (snd (fst (while_ok start_time (map without_cancel ts) b))).
Proof.
  induction ts as [|t ts IH]; intros a b A.
  - alike_trio.
  - cbn [map]. rewrite !while_ok_cons. cbn [ok without_cancel].
    pose proof (alike_serve t a b A) as A1.
    destruct (ok t); [|alike_trio].
    destruct (alike_body start_time t _ _ A1) as (E & S & A2).
    change {| stat_msgs := stat_msgs t; cancel_request := false;
              ok := ok t; now := now t;
              before_position := before_position t;
              before_is_moving := before_is_moving t;
              before_obj_detected := before_obj_detected t |}
      with (without_cancel t).
    destruct (body start_time t (serve t a)) as [[e1 f1] s1].
    destruct (body start_time (without_cancel t)
                (serve (without_cancel t) b)) as [[e2 f2] s2].
    cbn [fst snd] in E, S, A2. subst e2 s2.
    destruct s1; try alike_trio.
    destruct (IH f1 f2 A2) as (E' & S' & A').
    destruct (while_ok start_time ts f1) as [[e3 f3] s3].
    destruct (while_ok start_time (map without_cancel ts) f2) as [[e4 f4] s4].
    cbn [fst snd] in *. subst e4 s4. alike_trio.
Qed.

Lemma alike_locals (start_time : float) (c : GripperCmd.t) (a b : Frame) :
  alike a b -> locals start_time c a = locals start_time c b.
Proof.
  intros (S & F & R & D & Q). unfold locals. rewrite F, D. reflexivity.
Qed.

(** The status of the goal handle never leaves executing, canceling and
    succeeded. *)
Lemma live_serve (t : Tick) (fr : Frame) :
  live_or_succeeded (status (goal_handle fr)) = true ->
  live_or_succeeded (status (goal_handle (serve t fr))) = true.
Proof.
  intro L. unfold serve. destruct (cancel_request t); [|exact L].
  cbn [goal_handle with_handle with_self]. apply cancel_goal_live. exact L.
Qed.

Lemma live_body (start_time : float) (t : Tick) (fr : Frame) :
  live_or_succeeded (status (goal_handle fr)) = true ->
  live_or_succeeded
    (status (goal_handle (snd (fst (body start_time t fr))))) = true.
Proof.
  intro L.
  destruct (body_shape start_time t fr)
    as [[_ B] | [(_ & _ & B) | (stat & _ & _ & B)]];
    rewrite B; try exact L.
  destruct (Feedback.reached_goal _); [reflexivity | exact L].
Qed.

Lemma live_while (start_time : float) (ts : list Tick) :
  forall fr : Frame,
    live_or_succeeded (status (goal_handle fr)) = true ->
    live_or_succeeded
      (status (goal_handle (snd (fst (while_ok start_time ts fr))))) = true.
Proof.
  induction ts as [|t ts IH]; intros fr L; [exact L|].
  rewrite while_ok_cons.
  pose proof (live_serve t fr L) as L1.
  destruct (ok t); [|exact L1].
  pose proof (live_body start_time t _ L1) as L2.
  destruct (body start_time t (serve t fr)) as [[e1 f1] s1].
  cbn [fst snd] in L2.
  destruct s1; try exact L2.
  specialize (IH f1 L2).
  destruct (while_ok start_time ts f1) as [[e2 f2] s2]. exact IH.
Qed.

(** C3, as the code has it.  The loop never consults the cancel flag of
    the goal handle.  An execution during which cancel requests are accepted
    produces the events, the feedback and the outcome of the same execution
    without them, and the goal is never marked canceled: it stays
    executing or canceling until it succeeds. *)
Theorem cancel_requests_are_ignored (self0 : Node) (gh0 : GoalHandle)
    (w : World) :
  status gh0 = STATUS_EXECUTING ->
  events_of (_execute_callback self0 gh0 w)
  = events_of (_execute_callback self0 gh0 (uncancelled w))
  /\ outcome_of (_execute_callback self0 gh0 w)
     = outcome_of (_execute_callback self0 gh0 (uncancelled w))
  /\ feedback_msg (frame_of (_execute_callback self0 gh0 w))
     = feedback_msg (frame_of (_execute_callback self0 gh0 (uncancelled w)))
  /\ live_or_succeeded
       (status (goal_handle (frame_of (_execute_callback self0 gh0 w)))) = true
  /\ status (goal_handle (frame_of (_execute_callback self0 gh0 w)))
     <> STATUS_CANCELED.
Proof.
  intro X.
  assert (A0 : alike (entry self0 gh0) (entry self0 gh0))
    by (repeat split).
  destruct (alike_while (get_time (start w)) (ticks w) _ _ A0) as (E & S & A).
  assert (L0 : live_or_succeeded (status (goal_handle (entry self0 gh0))) = true)
    by (cbn; rewrite X; reflexivity).
  pose proof (live_while (get_time (start w)) (ticks w) _ L0) as L.
  unfold _execute_callback, events_of, outcome_of, frame_of, uncancelled.
  cbn [start ticks spin_returns].
  destruct (while_ok (get_time (start w)) (ticks w) (entry self0 gh0))
    as [[e1 f1] s1].
  destruct (while_ok (get_time (start w)) (map without_cancel (ticks w))
              (entry self0 gh0)) as [[e2 f2] s2].
  cbn [fst snd] in E, S, A, L. subst e2 s2.
  assert (N : status (goal_handle f1) <> STATUS_CANCELED)
    by (intro C; rewrite C in L; discriminate).
  unfold epilogue. cbn [spin_returns].
  rewrite (alike_locals (get_time (start w)) (cmd_msg self0 gh0) f1 f2 A).
  destruct A as (_ & F & _).
  destruct s1; cbn [fst snd]; repeat split; assumption.
Qed.

(** C3 on an execution with a cancel request before the first iteration. *)
Lemma cancel_requests_are_ignored_witness :
  events_of (_execute_callback Scenario.node Scenario.handle Scenario.cancelled)
  = events_of (_execute_callback Scenario.node Scenario.handle
                 (uncancelled Scenario.cancelled))
  /\ outcome_of (_execute_callback Scenario.node Scenario.handle
                   Scenario.cancelled)
     = outcome_of (_execute_callback Scenario.node Scenario.handle
                     (uncancelled Scenario.cancelled))
  /\ feedback_msg (frame_of (_execute_callback Scenario.node Scenario.handle
                               Scenario.cancelled))
     = feedback_msg (frame_of (_execute_callback Scenario.node Scenario.handle
                                 (uncancelled Scenario.cancelled)))
  /\ live_or_succeeded
       (status (goal_handle
                  (frame_of (_execute_callback Scenario.node Scenario.handle
                               Scenario.cancelled)))) = true
  /\ status (goal_handle
               (frame_of (_execute_callback Scenario.node Scenario.handle
                            Scenario.cancelled)))
     <> STATUS_CANCELED.
Proof.
  apply (cancel_requests_are_ignored Scenario.node Scenario.handle
           Scenario.cancelled).
  reflexivity.
Defined.

(** C3 as the specification states it fails: a cancel request is accepted
    before the first iteration, so the goal handle reports
    [is_cancel_requested] when that iteration runs; the iteration publishes
    a feedback and leaves the loop polling with the goal canceling, not
    canceled; two more feedbacks follow and the goal ends succeeded. *)
Lemma cancel_request_not_consulted :
  is_cancel_requested
    (goal_handle (serve (Scenario.tick 0 [Scenario.stat 0.02 true false] true)
                    (entry Scenario.node Scenario.handle))) = true
  /\ (exists fr : Frame,
        while_ok Scenario.start_time Scenario.cancelled_early
          (entry Scenario.node Scenario.handle)
        = ([PublishFeedback
              (feedback_of Feedback.new (Scenario.stat 0.02 true false) false);
            Sleep], fr, Polling)
        /\ status (goal_handle fr) = STATUS_CANCELING)
  /\ feedbacks
       (events_of (_execute_callback Scenario.node Scenario.handle
                     Scenario.cancelled))
     = [ feedback_of Feedback.new (Scenario.stat 0.02 true false) false;
         feedback_of Feedback.new (Scenario.stat 0.03 true false) false;
         feedback_of Feedback.new (Scenario.stat 0.04 false false) true ]
  /\ status (goal_handle
               (frame_of (_execute_callback Scenario.node Scenario.handle
                            Scenario.cancelled)))
     = STATUS_SUCCEEDED.
Proof.
  split; [reflexivity|].
  split; [eexists; split; vm_compute; reflexivity|].
  split; vm_compute; reflexivity.
Qed.

(** ** The return statement *)

Lemma result_is_unbound (start_time : float) (c : GripperCmd.t) (fr : Frame) :
  load_name (locals start_time c fr) "result" = inr (NameError "result").
Proof. unfold locals. destruct (dt fr); reflexivity. Qed.

(** The variable [result_msg] does hold the last feedback at that point. *)
Lemma result_msg_is_feedback (start_time : float) (c : GripperCmd.t)
    (fr : Frame) :
  load_name (locals start_time c fr) "result_msg"
  = inl (FeedbackMsg (feedback_msg fr)).
Proof. reflexivity. Qed.

(** C4, as the code has it.  No call of the execute callback returns a
    result: it is still in its loop, or blocked in [thread.join()], or it
    raises [NameError] at [return result]. *)
Theorem execute_returns_no_result (self0 : Node) (gh0 : GoalHandle)
    (w : World) :
  outcome_of (_execute_callback self0 gh0 w) = Looping
  \/ outcome_of (_execute_callback self0 gh0 w) = Joining
  \/ outcome_of (_execute_callback self0 gh0 w) = Raised (NameError "result").
Proof.
  unfold _execute_callback, outcome_of.
  destruct (while_ok (get_time (start w)) (ticks w) (entry self0 gh0))
    as [[evs fr] s].
  destruct s; cbn [snd]; [left; reflexivity| | |];
    unfold epilogue; rewrite result_is_unbound;
    destruct (spin_returns w); auto.
Qed.

(** What holds of the timeout on every execution: at the first iteration
    whose elapsed time equals or exceeds the timeout the loop stops, no
    later iteration is run, and the message the callback was about to
    return says that the goal is not reached. *)
Lemma elapsed_timeout_stops_polling (self0 : Node) (gh0 : GoalHandle)
    (w : World) (pre post : list Tick) (t : Tick) (evs : list Event)
    (fr : Frame) :
  ticks w = pre ++ t :: post ->
  while_ok (get_time (start w)) pre (entry self0 gh0) = (evs, fr, Polling) ->
  ok t = true ->
  (_timeout self0 <=? get_time (now t) - get_time (start w))%float = true ->
  events_of (_execute_callback self0 gh0 w)
  = [Log INFO "Gripper executing goal..."; Publish (cmd_msg self0 gh0);
     ThreadStart]
    ++ evs ++ [Log WARN "Gripper timeout reached"; ThreadJoin]
  /\ Feedback.reached_goal (feedback_msg (frame_of (_execute_callback self0 gh0 w)))
     = false.
Proof.
  intros T W O D. apply reached_or_exceeded in D.
  destruct (timeout_stops_polling self0 gh0 (get_time (start w)) pre post
              t evs fr W O D) as [E U].
  unfold _execute_callback, events_of, frame_of. rewrite T, E. cbn [fst snd].
  split; [rewrite <- app_assoc; reflexivity|].
  cbn [feedback_msg with_dt]. rewrite serve_feedback. exact U.
Qed.

(** A timeout found at the first iteration: the command has been sent, no
    status is read and no feedback is published. *)
Lemma immediate_timeout (self0 : Node) (gh0 : GoalHandle) (w : World)
    (t : Tick) (post : list Tick) :
  ticks w = t :: post ->
  ok t = true ->
  (get_time (now t) - get_time (start w) <? _timeout self0)%float = false ->
  events_of (_execute_callback self0 gh0 w)
  = [Log INFO "Gripper executing goal..."; Publish (cmd_msg self0 gh0);
     ThreadStart; Log WARN "Gripper timeout reached"; ThreadJoin]
  /\ feedback_msg (frame_of (_execute_callback self0 gh0 w)) = Feedback.new.
Proof.
  intros T O D.
  destruct (timeout_stops_polling self0 gh0 (get_time (start w)) [] post
              t [] (entry self0 gh0) eq_refl O D) as [E _].
  cbn [app] in E.
  unfold _execute_callback, events_of, frame_of. rewrite T, E. cbn [fst snd].
  split; [reflexivity|].
  cbn [feedback_msg with_dt]. rewrite serve_feedback. reflexivity.
Qed.

(** C2 on a gripper that stays at 0.02 m for five seconds: the loop stops
    at the iteration that finds the timeout reached, ignoring the later
    ones, and [result_msg] holds a message whose [reached_goal] is [False];
    but the callback raises [NameError] instead of returning it. *)
Theorem timeout_result_is_lost :
  let r := _execute_callback Scenario.node Scenario.handle Scenario.stuck in
  events_of r
  = [Log INFO "Gripper executing goal...";
     Publish (cmd_msg Scenario.node Scenario.handle); ThreadStart]
    ++ Scenario.far_events
    ++ [Log WARN "Gripper timeout reached"; ThreadJoin]
  /\ load_name (locals Scenario.start_time
                  (cmd_msg Scenario.node Scenario.handle) (frame_of r))
       "result_msg"
     = inl (FeedbackMsg
              (feedback_of Feedback.new (Scenario.stat 0.02 true false) false))
  /\ outcome_of r = Raised (NameError "result").
Proof. cbv zeta. repeat split; vm_compute; reflexivity. Qed.

(** C9 on a node whose timeout is [0.0]: one command is sent, the first
    iteration finds the timeout reached before the status is read, nothing
    is published as feedback; and the callback raises [NameError] instead
    of returning the unreached result. *)
Theorem immediate_timeout_result_is_lost :
  let r := _execute_callback Scenario.node_without_time Scenario.handle
             Scenario.immediate in
  events_of r
  = [Log INFO "Gripper executing goal...";
     Publish (cmd_msg Scenario.node_without_time Scenario.handle); ThreadStart;
     Log WARN "Gripper timeout reached"; ThreadJoin]
  /\ feedbacks (events_of r) = []
  /\ feedback_msg (frame_of r) = Feedback.new
  /\ outcome_of r = Raised (NameError "result").
Proof. cbv zeta. repeat split; vm_compute; reflexivity. Qed.


(** * Further properties of the node *)

(** ** The status attribute *)

(** X1.  After the subscription has handled the messages of an iteration
    the status attribute holds the last of them, or what it held before
    when there was none; once a status has arrived the attribute is never
    [None] again. *)
Theorem status_is_the_latest (t : Tick) (fr : Frame) :
  _stat (self (serve t fr))
  = last (map Some (stat_msgs t)) (_stat (self fr))
  /\ (_stat (self fr) <> None -> _stat (self (serve t fr)) <> None).
Proof.
  rewrite serve_self, updates_latest. split; [reflexivity|].
  intro N. induction (stat_msgs t) as [|m ms IH]; [exact N|].
  destruct ms as [|m' ms]; [discriminate | exact IH].
Qed.

(** X1 on an iteration before which two messages were handled. *)
Lemma status_is_the_latest_witness :
  _stat (self (serve Cases.burst Scenario.far_frame))
  = Some (Scenario.stat 0.02 true false)
  /\ _stat (self (serve Cases.burst Scenario.far_frame)) <> None.
Proof.
  destruct (status_is_the_latest Cases.burst Scenario.far_frame) as [L N].
  split; [exact L|]. apply N. discriminate.
Defined.

(** ** Invariants of the loop *)

Section LoopInvariant.

Variable start_time : float.
Variable ts : list Tick.

(** [I] holds of the frames, [Q] of the feedback messages published. *)
Variable I : Frame -> Prop.
Variable Q : Feedback.t -> Prop.

Hypothesis I_serve : forall t fr, In t ts -> I fr -> I (serve t fr).
Hypothesis I_body :
  forall t fr, In t ts -> I fr ->
    I (snd (fst (body start_time t fr)))
    /\ Forall Q (feedbacks (fst (fst (body start_time t fr)))).

Lemma while_ok_invariant_on (l : list Tick) :
  incl l ts ->
  forall fr, I fr ->
    I (snd (fst (while_ok start_time l fr)))
    /\ Forall Q (feedbacks (fst (fst (while_ok start_time l fr)))).
Proof.
  induction l as [|t l IH]; intros Sub fr K.
  - split; [exact K | constructor].
  - rewrite while_ok_cons.
    assert (T : In t ts) by (apply Sub; left; reflexivity).
    assert (K1 : I (serve t fr)) by (apply I_serve; assumption).
    destruct (ok t); [|split; [exact K1 | constructor]].
    destruct (I_body t (serve t fr) T K1) as [K2 F2].
    destruct (body start_time t (serve t fr)) as [[e1 f1] s1].
    cbn [fst snd] in K2, F2.
    destruct s1; try (split; assumption).
    destruct (IH (fun x H => Sub x (or_intror H)) f1 K2) as [K3 F3].
    destruct (while_ok start_time l f1) as [[e2 f2] s2].
    cbn [fst snd] in *. split; [exact K3|].
    rewrite feedbacks_app. apply Forall_app. split; assumption.
Qed.

Lemma while_ok_invariant (fr : Frame) :
  I fr ->
  I (snd (fst (while_ok start_time ts fr)))
  /\ Forall Q (feedbacks (fst (fst (while_ok start_time ts fr)))).
Proof. apply while_ok_invariant_on. apply incl_refl. Qed.

End LoopInvariant.

(** What the callback's events and frame are made of. *)
Lemma execute_unfolded (self0 : Node) (gh0 : GoalHandle) (w : World) :
  frame_of (_execute_callback self0 gh0 w)
  = snd (fst (while_ok (get_time (start w)) (ticks w) (entry self0 gh0)))
  /\ feedbacks (events_of (_execute_callback self0 gh0 w))
     = feedbacks
         (fst (fst (while_ok (get_time (start w)) (ticks w) (entry self0 gh0))))
  /\ successes (events_of (_execute_callback self0 gh0 w))
     = successes
         (fst (fst (while_ok (get_time (start w)) (ticks w) (entry self0 gh0)))).
Proof.
  unfold _execute_callback, frame_of, events_of.
  destruct (while_ok (get_time (start w)) (ticks w) (entry self0 gh0))
    as [[evs fr] s].
  destruct s; cbn [fst snd app feedbacks successes];
    rewrite ?feedbacks_app, ?successes_app; cbn [feedbacks successes];
    rewrite ?app_nil_r, ?Nat.add_0_r; repeat split; reflexivity.
Qed.

Lemma stat_not_lost (ms : list GripperStat.t) (n : Node) :
  _stat n <> None -> _stat (fold_left _update_gripper_stat ms n) <> None.
Proof.
  intro N. rewrite updates_latest.
  induction ms as [|m ms IH]; [exact N|].
  destruct ms as [|m' ms]; [discriminate | exact IH].
Qed.

Lemma body_keeps_node (start_time : float) (t : Tick) (fr : Frame) :
  _timeout (self (snd (fst (body start_time t fr)))) = _timeout (self fr)
  /\ _position_tolerance (self (snd (fst (body start_time t fr))))
     = _position_tolerance (self fr)
  /\ _gripper_speed (self (snd (fst (body start_time t fr))))
     = _gripper_speed (self fr)
  /\ request (goal_handle (snd (fst (body start_time t fr))))
     = request (goal_handle fr)
  /\ (_stat (self fr) <> None ->
      _stat (self (snd (fst (body start_time t fr)))) <> None).
Proof.
  destruct (handle_parameters (during t)
              (with_dt fr (get_time (now t) - start_time)%float))
    as (K1 & K2 & K3).
  assert (N : _stat (self fr) <> None ->
              _stat (self (handle (during t)
                             (with_dt fr (get_time (now t) - start_time)%float)))
              <> None)
    by (intro X; apply stat_not_lost; exact X).
  destruct (body_shape start_time t fr)
    as [[_ B] | [(_ & _ & B) | (stat & _ & _ & B)]];
    rewrite B; [repeat split; auto | repeat split; assumption |].
  destruct (Feedback.reached_goal _); repeat split; assumption.
Qed.

(** The loop keeps the parameters of the node and the request of the goal,
    and does not lose the status. *)
Lemma loop_keeps_node (start_time : float) (ts : list Tick) (fr : Frame) :
  _timeout (self (snd (fst (while_ok start_time ts fr)))) = _timeout (self fr)
  /\ _position_tolerance (self (snd (fst (while_ok start_time ts fr))))
     = _position_tolerance (self fr)
  /\ _gripper_speed (self (snd (fst (while_ok start_time ts fr))))
     = _gripper_speed (self fr)
  /\ request (goal_handle (snd (fst (while_ok start_time ts fr))))
     = request (goal_handle fr)
  /\ (_stat (self fr) <> None ->
      _stat (self (snd (fst (while_ok start_time ts fr)))) <> None).
Proof.
  pose (I := fun x : Frame =>
               _timeout (self x) = _timeout (self fr)
               /\ _position_tolerance (self x) = _position_tolerance (self fr)
               /\ _gripper_speed (self x) = _gripper_speed (self fr)
               /\ request (goal_handle x) = request (goal_handle fr)
               /\ (_stat (self fr) <> None -> _stat (self x) <> None)).
  apply (while_ok_invariant start_time ts I (fun _ => True)).
  - intros t x _ (T & P & G & R & N).
    destruct (updates_keep_parameters (stat_msgs t) (self x)) as (K1 & K2 & K3).
    unfold I. rewrite serve_self, serve_request, K1, K2, K3.
    repeat split; try assumption.
    intro X. apply stat_not_lost. exact (N X).
  - intros t x _ (T & P & G & R & N).
    destruct (body_keeps_node start_time t x) as (K1 & K2 & K3 & K4 & K5).
    split; [|apply Forall_forall; intros; exact Logic.I].
    unfold I. rewrite K1, K2, K3, K4. repeat split; try assumption.
    intro X. exact (K5 (N X)).
  - unfold I. repeat split. auto.
Qed.

(** X2.  An execution changes none of the node's parameters and leaves the
    goal's request as it was; the only attribute of the node that moves is
    the status, and it is not lost: a node that had a status still has one
    afterwards. *)
Theorem execution_keeps_the_node (self0 : Node) (gh0 : GoalHandle) (w : World) :
  _timeout (self (frame_of (_execute_callback self0 gh0 w))) = _timeout self0
  /\ _position_tolerance (self (frame_of (_execute_callback self0 gh0 w)))
     = _position_tolerance self0
  /\ _gripper_speed (self (frame_of (_execute_callback self0 gh0 w)))
     = _gripper_speed self0
  /\ request (goal_handle (frame_of (_execute_callback self0 gh0 w)))
     = request gh0
  /\ (_stat self0 <> None ->
      _stat (self (frame_of (_execute_callback self0 gh0 w))) <> None).
Proof.
  destruct (execute_unfolded self0 gh0 w) as (-> & _ & _).
  exact (loop_keeps_node (get_time (start w)) (ticks w) (entry self0 gh0)).
Qed.

(** ** What the feedback can contain *)

Lemma last_some_in (ms : list GripperStat.t) (o : option GripperStat.t)
    (stat : GripperStat.t) :
  last (map Some ms) o = Some stat -> o = Some stat \/ In stat ms.
Proof.
  induction ms as [|m ms IH]; [left; assumption|].
  destruct ms as [|m' ms].
  - cbn. intro E. right. left. congruence.
  - intro E.
    destruct (IH E) as [H|H]; [left; exact H | right; right; exact H].
Qed.

Lemma last_cases (ms : list GripperStat.t) (stat : GripperStat.t) :
  last ms stat = stat \/ In (last ms stat) ms.
Proof.
  induction ms as [|m ms IH]; [left; reflexivity|].
  destruct ms as [|m' ms].
  - right. left. reflexivity.
  - destruct IH as [H|H]; [left; exact H | right; right; exact H].
Qed.

Lemma arrival_is_a_status (self0 : Node) (w : World) (t : Tick)
    (stat : GripperStat.t) :
  In t (ticks w) -> In stat (arrivals t) -> In stat (statuses self0 w).
Proof.
  intros T A. unfold statuses. apply in_or_app. right.
  apply in_flat_map. exists t. split; assumption.
Qed.

(** X3.  Every feedback an execution publishes carries the position of a
    status the node really held or received during that execution and the
    negated motion flag of such a status (not always the same one, when a
    message is handled between the two loads), and its effort is the
    constructor's [0.0]: the callback never reports an effort. *)
Theorem feedback_comes_from_statuses (self0 : Node) (gh0 : GoalHandle)
    (w : World) :
  Forall
    (fun m : Feedback.t =>
       Feedback.effort m = 0%float
       /\ (exists stat : GripperStat.t,
             In stat (statuses self0 w)
             /\ Feedback.position m = GripperStat.position stat)
       /\ (exists stat : GripperStat.t,
             In stat (statuses self0 w)
             /\ Feedback.stalled m = negb (GripperStat.is_moving stat)))
    (feedbacks (events_of (_execute_callback self0 gh0 w))).
Proof.
  destruct (execute_unfolded self0 gh0 w) as (_ & -> & _).
  pose (I := fun fr : Frame =>
               Feedback.effort (feedback_msg fr) = 0%float
               /\ forall stat, _stat (self fr) = Some stat ->
                               In stat (statuses self0 w)).
  assert (Step : forall t ms fr,
             In t (ticks w) -> incl ms (arrivals t) -> I fr ->
             I (handle ms fr)).
  { intros t ms fr T Sub [E P]. split; [exact E|].
    intros stat L. unfold handle in L. cbn [self with_self] in L.
    rewrite updates_latest in L.
    destruct (last_some_in _ _ _ L) as [H|H]; [exact (P stat H)|].
    apply (arrival_is_a_status self0 w t); [exact T | apply Sub; exact H]. }
  assert (Du : forall t, incl (during t) (arrivals t))
    by (intros t x H; apply in_or_app; right; exact H).
  apply (while_ok_invariant (get_time (start w)) (ticks w) I).
  - intros t fr T K.
    assert (K1 : I (handle (stat_msgs t) fr)).
    { apply (Step t); [exact T | | exact K].
      intros x H. apply in_or_app. left. exact H. }
    destruct K1 as [E P]. split.
    + rewrite serve_feedback. exact E.
    + rewrite serve_self. exact P.
  - intros t fr T [E P].
    assert (K1 : I (handle (during t)
                      (with_dt fr (get_time (now t) - get_time (start w))%float)))
      by (apply (Step t); [exact T | apply Du | split; assumption]).
    destruct (body_shape (get_time (start w)) t fr)
      as [[_ B] | [(_ & _ & B) | (stat & _ & S & B)]];
      rewrite B; clear B.
    + split; [split; assumption | constructor].
    + split; [exact K1 | constructor].
    + set (m := feedback_from (feedback_msg fr) (position_read t stat)
                  (moving_read t stat) _).
      assert (Pool : forall ms x,
                 incl ms (during t) -> In x (statuses self0 w) ->
                 In (last ms x) (statuses self0 w)).
      { intros ms x Sub X. destruct (last_cases ms x) as [-> | H]; [exact X|].
        apply (arrival_is_a_status self0 w t _ T). apply Du, Sub, H. }
      assert (Sp : In (position_read t stat) (statuses self0 w)).
      { apply Pool; [|exact (P stat S)].
        intros x H. apply in_or_app. left. exact H. }
      assert (Sm : In (moving_read t stat) (statuses self0 w)).
      { apply Pool; [|exact Sp].
        intros x H. apply in_or_app. right. apply in_or_app. left. exact H. }
      assert (Qm : Feedback.effort m = 0%float
                   /\ (exists s0, In s0 (statuses self0 w)
                         /\ Feedback.position m = GripperStat.position s0)
                   /\ (exists s0, In s0 (statuses self0 w)
                         /\ Feedback.stalled m
                            = negb (GripperStat.is_moving s0))).
      { split; [exact E|].
        split; [exists (position_read t stat) | exists (moving_read t stat)];
          (split; [assumption | reflexivity]). }
      destruct K1 as [_ P1].
      destruct (Feedback.reached_goal m); cbn [fst snd];
        rewrite feedbacks_app;
        (split; [split; [apply Qm | exact P1]|]);
        apply Forall_app; (split; [|constructor; [exact Qm | constructor]]);
        destruct (judged _ _ _ _); constructor.
  - split; [reflexivity|].
    intros stat S. unfold statuses. cbn [entry self] in S. rewrite S.
    left. reflexivity.
Qed.

(** X4.  An iteration publishes at most one feedback: an execution never
    publishes more feedback messages than its loop has made iterations. *)
Theorem at_most_one_feedback_per_iteration (self0 : Node) (gh0 : GoalHandle)
    (w : World) :
  List.length (feedbacks (events_of (_execute_callback self0 gh0 w)))
  <= List.length (ticks w).
Proof.
  destruct (execute_unfolded self0 gh0 w) as (_ & -> & _).
  generalize (entry self0 gh0).
  induction (ticks w) as [|t ts IH]; intro fr; [apply Nat.le_refl|].
  rewrite while_ok_cons. destruct (ok t); [|cbn; lia].
  assert (B1 : List.length (feedbacks (fst (fst (body (get_time (start w)) t
                                              (serve t fr))))) <= 1).
  { destruct (body_shape (get_time (start w)) t (serve t fr))
      as [[_ B] | [(_ & _ & B) | (stat & _ & _ & B)]];
      rewrite B; [cbn; lia | cbn; lia |].
    destruct (Feedback.reached_goal _); cbn [fst];
      rewrite feedbacks_app; destruct (judged _ _ _ _); cbn; lia. }
  destruct (body (get_time (start w)) t (serve t fr)) as [[e1 f1] s1].
  cbn [fst] in B1.
  destruct s1; cbn [fst List.length]; try lia.
  specialize (IH f1).
  destruct (while_ok (get_time (start w)) ts f1) as [[e2 f2] s2].
  cbn [fst] in *. rewrite feedbacks_app, List.length_app. lia.
Qed.

(** ** How the loop ends *)

(** The verdict of the loop, started with a feedback message that does not
    say reached: either it ends in [Succeeded], its last two events are the
    feedback that says reached and the call of [succeed], and nothing
    before said so; or nothing succeeded and no feedback says reached. *)
Lemma loop_verdict (start_time : float) (ts : list Tick) :
  forall (fr fr' : Frame) (evs : list Event) (s : LoopState),
    Feedback.reached_goal (feedback_msg fr) = false ->
    while_ok start_time ts fr = (evs, fr', s) ->
    (s = Succeeded
     /\ Feedback.reached_goal (feedback_msg fr') = true
     /\ status (goal_handle fr') = STATUS_SUCCEEDED
     /\ exists front : list Event,
          evs = front ++ [PublishFeedback (feedback_msg fr'); Succeed]
          /\ successes front = 0
          /\ Forall (fun m => Feedback.reached_goal m = false)
               (feedbacks front))
    \/ (s <> Succeeded
        /\ Feedback.reached_goal (feedback_msg fr') = false
        /\ successes evs = 0
        /\ Forall (fun m => Feedback.reached_goal m = false) (feedbacks evs)
        /\ (live_or_succeeded (status (goal_handle fr)) = true ->
            status (goal_handle fr) <> STATUS_SUCCEEDED ->
            status (goal_handle fr') = STATUS_EXECUTING
            \/ status (goal_handle fr') = STATUS_CANCELING)).
Proof.
  assert (Live : forall h : GoalHandle,
             live_or_succeeded (status h) = true ->
             status h <> STATUS_SUCCEEDED ->
             status h = STATUS_EXECUTING \/ status h = STATUS_CANCELING)
    by (intros [q []] L N; cbn in *; auto; try discriminate; congruence).
  assert (Serve : forall t fr,
             live_or_succeeded (status (goal_handle fr)) = true ->
             status (goal_handle fr) <> STATUS_SUCCEEDED ->
             live_or_succeeded (status (goal_handle (serve t fr))) = true
             /\ status (goal_handle (serve t fr)) <> STATUS_SUCCEEDED).
  { intros t [n [q st] f r d] L N. unfold serve. cbn in *.
    destruct (cancel_request t); cbn; [|auto].
    destruct st; cbn in *; auto; try discriminate; split; congruence. }
  induction ts as [|t ts IH]; intros fr fr' evs s U W.
  - inversion W; subst. right.
    repeat split; try assumption; try discriminate; try apply Forall_nil.
    apply Live.
  - rewrite while_ok_cons in W.
    assert (U1 : Feedback.reached_goal (feedback_msg (serve t fr)) = false)
      by (rewrite serve_feedback; exact U).
    destruct (ok t).
    + destruct ((get_time (now t) - start_time
                 <? _timeout (self (serve t fr)))%float) eqn:D;
        [destruct (_stat (self (serve t fr))) as [stat|] eqn:S|].
      * rewrite (body_status start_time t (serve t fr) stat D S U1) in W.
        destruct (judged (self (serve t fr)) (goal_handle (serve t fr))
                    (position_read t stat) (detect_read t stat)) eqn:H.
        -- inversion W; subst. left.
           repeat split.
           exists [Log INFO "Goal achieved: True"].
           repeat split. constructor.
        -- destruct (while_ok start_time ts _) as [[e2 f2] s2] eqn:W2.
           inversion W; subst.
           pose proof (fun X => IH _ _ _ _ X W2) as IH2.
           destruct (IH2 eq_refl)
             as [(-> & Rf & St & front & -> & S0 & F0)
                | (N & Rf & S0 & F0 & G)].
           ++ left. repeat split; try assumption.
              exists ([PublishFeedback
                         (feedback_from (feedback_msg (serve t fr))
                            (position_read t stat) (moving_read t stat) false);
                       Sleep] ++ front).
              rewrite <- app_assoc. repeat split; [exact S0|].
              cbn. constructor; [reflexivity | exact F0].
           ++ right. repeat split; try assumption.
              ** cbn. constructor; [reflexivity | exact F0].
              ** intros L N'. apply G; apply (Serve t fr L N').
      * rewrite (body_no_status start_time t (serve t fr) D S) in W.
        destruct (while_ok start_time ts _) as [[e2 f2] s2] eqn:W2.
        inversion W; subst.
        pose proof (fun X => IH _ _ _ _ X W2) as IH2.
        destruct (IH2 U1)
          as [(-> & Rf & St & front & -> & S0 & F0)
             | (N & Rf & S0 & F0 & G)].
        -- left. repeat split; try assumption.
           exists ([Log WARN "No gripper feedback yet"; Sleep] ++ front).
           rewrite <- app_assoc. repeat split; assumption.
        -- right. repeat split; try assumption.
           intros L N'. apply G; apply (Serve t fr L N').
      * rewrite (body_timed_out start_time t (serve t fr) D) in W.
        inversion W; subst. right.
        repeat split; try assumption; try discriminate; try apply Forall_nil.
        intros L N. apply Live; apply (Serve t fr L N).
    + inversion W; subst. right.
      repeat split; try assumption; try discriminate; try apply Forall_nil.
      intros L N. apply Live; apply (Serve t fr L N).
Qed.

(** X5.  [goal_handle.succeed()] is called at most once in an execution,
    and exactly when the feedback message ends up saying reached; that
    feedback is then the last one published, and no earlier feedback says
    reached. *)
Theorem succeeds_at_most_once (self0 : Node) (gh0 : GoalHandle) (w : World) :
  successes (events_of (_execute_callback self0 gh0 w))
  = (if Feedback.reached_goal
          (feedback_msg (frame_of (_execute_callback self0 gh0 w)))
     then 1 else 0)
  /\ exists front : list Feedback.t,
       Forall (fun m => Feedback.reached_goal m = false) front
       /\ feedbacks (events_of (_execute_callback self0 gh0 w))
          = front
            ++ (if Feedback.reached_goal
                     (feedback_msg (frame_of (_execute_callback self0 gh0 w)))
                then [feedback_msg (frame_of (_execute_callback self0 gh0 w))]
                else []).
Proof.
  destruct (execute_unfolded self0 gh0 w) as (-> & -> & ->).
  destruct (while_ok (get_time (start w)) (ticks w) (entry self0 gh0))
    as [[evs fr] s] eqn:W.
  cbn [fst snd].
  destruct (loop_verdict _ _ _ _ _ _ (eq_refl : Feedback.reached_goal
              (feedback_msg (entry self0 gh0)) = false) W)
    as [(_ & R & _ & front & -> & S0 & F0) | (_ & R & S0 & F0 & _)];
    rewrite R.
  - rewrite successes_app, feedbacks_app, S0. split; [reflexivity|].
    exists (feedbacks front). split; [exact F0 | reflexivity].
  - split; [exact S0|].
    exists (feedbacks evs). rewrite app_nil_r. split; [exact F0 | reflexivity].
Qed.

(** X6.  The callback gives the goal no terminal status but succeeded: a
    goal handed over as executing is succeeded when the feedback message
    says reached, and otherwise, also after the timeout or a shutdown, is
    left executing, or canceling when a cancel request was accepted. *)
Theorem goal_left_open_unless_reached (self0 : Node) (gh0 : GoalHandle)
    (w : World) :
  status gh0 = STATUS_EXECUTING ->
  (Feedback.reached_goal
     (feedback_msg (frame_of (_execute_callback self0 gh0 w))) = true
   /\ status (goal_handle (frame_of (_execute_callback self0 gh0 w)))
      = STATUS_SUCCEEDED)
  \/ (Feedback.reached_goal
        (feedback_msg (frame_of (_execute_callback self0 gh0 w))) = false
      /\ (status (goal_handle (frame_of (_execute_callback self0 gh0 w)))
          = STATUS_EXECUTING
          \/ status (goal_handle (frame_of (_execute_callback self0 gh0 w)))
             = STATUS_CANCELING)).
Proof.
  intro X.
  destruct (execute_unfolded self0 gh0 w) as (-> & _ & _).
  destruct (while_ok (get_time (start w)) (ticks w) (entry self0 gh0))
    as [[evs fr] s] eqn:W.
  cbn [fst snd].
  destruct (loop_verdict _ _ _ _ _ _ (eq_refl : Feedback.reached_goal
              (feedback_msg (entry self0 gh0)) = false) W)
    as [(_ & R & St & _) | (_ & R & _ & _ & G)].
  - left. split; assumption.
  - right. split; [exact R|].
    apply G; cbn [entry goal_handle]; rewrite X; [reflexivity | discriminate].
Qed.

(** X6 on the gripper that stays away from the target until the timeout:
    the goal is still executing when the callback leaves its loop. *)
Lemma goal_left_open_unless_reached_witness :
  Feedback.reached_goal
    (feedback_msg
       (frame_of (_execute_callback Scenario.node Scenario.handle
                    Scenario.stuck))) = false
  /\ status (goal_handle
               (frame_of (_execute_callback Scenario.node Scenario.handle
                            Scenario.stuck)))
     = STATUS_EXECUTING.
Proof.
  destruct (goal_left_open_unless_reached Scenario.node Scenario.handle
              Scenario.stuck eq_refl) as [[R _] | [R _]].
  - vm_compute in R. discriminate R.
  - split; [exact R | vm_compute; reflexivity].
Defined.

(** X7.  An iteration at which [rclpy.ok()] is false ends the loop without
    an event of its own: no warning, no feedback, no success; the status
    messages handled before it are not looked at, and later iterations do
    not run. *)
Theorem shutdown_ends_the_loop_silently (self0 : Node) (gh0 : GoalHandle)
    (w : World) (pre post : list Tick) (t : Tick) (evs : list Event)
    (fr : Frame) :
  ticks w = pre ++ t :: post ->
  while_ok (get_time (start w)) pre (entry self0 gh0) = (evs, fr, Polling) ->
  ok t = false ->
  events_of (_execute_callback self0 gh0 w)
  = [Log INFO "Gripper executing goal..."; Publish (cmd_msg self0 gh0);
     ThreadStart]
    ++ evs ++ [ThreadJoin]
  /\ feedback_msg (frame_of (_execute_callback self0 gh0 w)) = feedback_msg fr
  /\ Feedback.reached_goal
       (feedback_msg (frame_of (_execute_callback self0 gh0 w))) = false
  /\ successes (events_of (_execute_callback self0 gh0 w)) = 0.
Proof.
  intros T W O.
  pose proof (tracks_while self0 gh0 _ pre _ _ _ (tracks_entry self0 gh0) W)
    as K.
  destruct (polling_events self0 gh0 _ pre _ _ _ (tracks_entry self0 gh0) W)
    as [S0 _].
  assert (E : while_ok (get_time (start w)) (pre ++ t :: post)
                (entry self0 gh0)
              = (evs, serve t fr, Shutdown)).
  { rewrite (while_ok_app _ pre (t :: post) _ fr evs W).
    rewrite while_ok_cons, O, app_nil_r. reflexivity. }
  unfold _execute_callback, events_of, frame_of. rewrite T, E. cbn [fst snd].
  rewrite serve_feedback.
  repeat split; [exact (unreached _ _ _ K)|].
  cbn [app successes]. rewrite successes_app, S0. reflexivity.
Qed.

(** X7 on an execution interrupted at its third iteration, although the
    status handled just before was on target. *)
Lemma shutdown_ends_the_loop_silently_witness :
  events_of (_execute_callback Scenario.node Scenario.handle Cases.interrupted)
  = [Log INFO "Gripper executing goal...";
     Publish (cmd_msg Scenario.node Scenario.handle); ThreadStart]
    ++ Scenario.far_events ++ [ThreadJoin]
  /\ feedback_msg (frame_of (_execute_callback Scenario.node Scenario.handle
                               Cases.interrupted))
     = feedback_msg Scenario.far_frame
  /\ Feedback.reached_goal
       (feedback_msg (frame_of (_execute_callback Scenario.node Scenario.handle
                                  Cases.interrupted))) = false
  /\ successes (events_of (_execute_callback Scenario.node Scenario.handle
                             Cases.interrupted)) = 0.
Proof.
  apply (shutdown_ends_the_loop_silently Scenario.node Scenario.handle
           Cases.interrupted Scenario.far Scenario.afterwards Cases.halted
           Scenario.far_events Scenario.far_frame).
  - reflexivity.
  - exact far_is_polling.
  - reflexivity.
Defined.

(** X8.  A node as the constructor builds it, whatever parameters it was
    launched with, holds no status; if no status message arrives during an
    execution, the execution publishes no feedback and never succeeds,
    however long it runs and however it ends. *)
Theorem no_status_no_feedback (overrides : string -> option float)
    (gh0 : GoalHandle) (w : World) :
  (forall t, In t (ticks w) -> arrivals t = []) ->
  feedbacks (events_of (_execute_callback (__init__ overrides) gh0 w)) = []
  /\ successes (events_of (_execute_callback (__init__ overrides) gh0 w)) = 0
  /\ feedback_msg (frame_of (_execute_callback (__init__ overrides) gh0 w))
     = Feedback.new.
Proof.
  intro H.
  destruct (execute_unfolded (__init__ overrides) gh0 w) as (-> & -> & ->).
  pose (I := fun fr : Frame =>
               _stat (self fr) = None /\ feedback_msg fr = Feedback.new).
  destruct (while_ok_invariant (get_time (start w)) (ticks w) I
              (fun _ => False)) with (fr := entry (__init__ overrides) gh0)
    as [[N F] Q].
  - intros t fr T [N F]. unfold I.
    destruct (app_eq_nil _ _ (H t T)) as [M _].
    rewrite serve_self, serve_feedback, M. split; assumption.
  - intros t fr T [N F].
    destruct (app_eq_nil _ _ (H t T)) as [_ Du].
    destruct (body_shape (get_time (start w)) t fr)
      as [[_ B] | [(_ & _ & B) | (stat & _ & S & _)]];
      [rewrite B; split; [split; assumption | constructor]
      | rewrite B, Du; split; [split; assumption | constructor]
      | congruence].
  - split; reflexivity.
  - destruct (while_ok (get_time (start w)) (ticks w)
                (entry (__init__ overrides) gh0)) as [[evs fr] s] eqn:W.
    cbn [fst snd] in *.
    assert (E : feedbacks evs = [])
      by (destruct (feedbacks evs); [reflexivity | inversion Q; contradiction]).
    repeat split; try assumption.
    destruct (loop_verdict _ _ _ _ _ _
                (eq_refl : Feedback.reached_goal
                   (feedback_msg (entry (__init__ overrides) gh0)) = false) W)
      as [(_ & R & _) | (_ & _ & S0 & _)]; [|exact S0].
    rewrite F in R. discriminate R.
Qed.

(** X8 on three iterations without a message. *)
Lemma no_status_no_feedback_witness :
  feedbacks (events_of (_execute_callback (__init__ (fun _ => None))
                          Scenario.handle Scenario.silent)) = []
  /\ successes (events_of (_execute_callback (__init__ (fun _ => None))
                             Scenario.handle Scenario.silent)) = 0
  /\ feedback_msg (frame_of (_execute_callback (__init__ (fun _ => None))
                               Scenario.handle Scenario.silent))
     = Feedback.new.
Proof.
  apply (no_status_no_feedback (fun _ => None) Scenario.handle Scenario.silent).
  intros t T. cbn in T. destruct T as [<-|[<-|[<-|[]]]]; reflexivity.
Defined.

(** ** Parameters at the edge *)

(** Nothing is below NaN. *)
Lemma nothing_below_nan (d x : float) :
  is_nan x = true -> (d <? x)%float = false.
Proof.
  unfold is_nan. rewrite negb_true_iff.
  rewrite FloatAxioms.eqb_spec, FloatAxioms.ltb_spec.
  unfold SFeqb, SFltb.
  destruct (Prim2SF x) as [s|s| |s m e]; cbn.
  - discriminate.
  - destruct s; discriminate.
  - intros _. destruct (Prim2SF d); reflexivity.
  - rewrite Z.compare_refl.
    change (PosDef.Pos.compare_cont Eq m m) with (Pos.compare m m).
    rewrite Pos.compare_refl. destruct s; discriminate.
Qed.

(** An absolute value is below no number that is not positive. *)
Lemma fabs_not_below (x tol : float) :
  (0 <? tol)%float = false -> (fabs x <? tol)%float = false.
Proof.
  unfold fabs. rewrite !FloatAxioms.ltb_spec, FloatAxioms.abs_spec.
  change (Prim2SF 0) with (S754_zero false).
  unfold SFltb, SFabs.
  destruct (Prim2SF tol) as [s|s| |s m e], (Prim2SF x) as [s'|s'| |s' m' e'];
    cbn; try reflexivity; try discriminate;
    destruct s; try reflexivity; discriminate.
Qed.

(** X9.  The timeout test is written [not (dt < self._timeout)], so a
    timeout parameter that is NaN counts as reached at once: the command is
    sent, the first iteration breaks with the warning, and no status is read
    nor feedback published, whatever the clock says. *)
Theorem nan_timeout_ends_at_once (self0 : Node) (gh0 : GoalHandle) (w : World)
    (t : Tick) (post : list Tick) :
  is_nan (_timeout self0) = true ->
  ticks w = t :: post ->
  ok t = true ->
  events_of (_execute_callback self0 gh0 w)
  = [Log INFO "Gripper executing goal..."; Publish (cmd_msg self0 gh0);
     ThreadStart; Log WARN "Gripper timeout reached"; ThreadJoin]
  /\ feedback_msg (frame_of (_execute_callback self0 gh0 w)) = Feedback.new.
Proof.
  intros N T O.
  apply (immediate_timeout self0 gh0 w t post T O).
  apply nothing_below_nan. exact N.
Qed.

(** X9 on a node launched with [timeout] NaN, at the first iteration of a
    goal whose target is the gripper's position. *)
Lemma nan_timeout_ends_at_once_witness :
  events_of (_execute_callback Cases.node_nan Scenario.handle
               Scenario.immediate)
  = [Log INFO "Gripper executing goal...";
     Publish (cmd_msg Cases.node_nan Scenario.handle);
     ThreadStart; Log WARN "Gripper timeout reached"; ThreadJoin]
  /\ feedback_msg (frame_of (_execute_callback Cases.node_nan Scenario.handle
                               Scenario.immediate))
     = Feedback.new.
Proof.
  apply (nan_timeout_ends_at_once Cases.node_nan Scenario.handle
           Scenario.immediate
           (Scenario.tick 0 [Scenario.stat 0.04 false false] false) []);
    reflexivity.
Defined.

(** X10.  The position test is strict, so with a tolerance that is zero,
    negative or NaN no position counts as reached, not even the target
    itself: on a polling iteration with a status the goal succeeds exactly
    when the status held at the load of [obj_detected] reports a detected
    object. *)
Theorem only_detection_without_tolerance (self0 : Node) (gh0 : GoalHandle)
    (start_time : float) (pre : list Tick) (t : Tick) (evs : list Event)
    (fr : Frame) (stat : GripperStat.t) :
  (0 <? _position_tolerance self0)%float = false ->
  while_ok start_time pre (entry self0 gh0) = (evs, fr, Polling) ->
  ok t = true ->
  (get_time (now t) - start_time <? _timeout self0)%float = true ->
  _stat (self (serve t fr)) = Some stat ->
  exists fr' : Frame,
    while_ok start_time (pre ++ [t]) (entry self0 gh0)
    = (evs
       ++ (if GripperStat.obj_detected (detect_read t stat)
           then [Log INFO "Goal achieved: True";
                 PublishFeedback
                   (feedback_from (feedback_msg fr) (position_read t stat)
                      (moving_read t stat) true);
                 Succeed]
           else [PublishFeedback
                   (feedback_from (feedback_msg fr) (position_read t stat)
                      (moving_read t stat) false);
                 Sleep]),
       fr',
       if GripperStat.obj_detected (detect_read t stat)
       then Succeeded else Polling).
Proof.
  intros Z W O D S.
  pose proof (polling_tick_with_status self0 gh0 start_time pre t evs fr stat
                W O D S) as E.
  cbv zeta in E.
  assert (R : judged self0 gh0 (position_read t stat) (detect_read t stat)
              = GripperStat.obj_detected (detect_read t stat))
    by (unfold judged; rewrite (fabs_not_below _ _ Z); reflexivity).
  rewrite R in E. rewrite E.
  destruct (GripperStat.obj_detected (detect_read t stat));
    eexists; reflexivity.
Qed.

(** X10 on a node launched with [position_tolerance] at [0.0] and a
    gripper that stands on the target: the loop goes on polling. *)
Lemma only_detection_without_tolerance_witness :
  exists fr' : Frame,
    while_ok Scenario.start_time (Scenario.far ++ [Cases.on_target])
      (entry Cases.node_strict Scenario.handle)
    = (Scenario.far_events
       ++ [PublishFeedback
             (feedback_of (feedback_msg Scenario.far_frame)
                (Scenario.stat 0.04 false false) false);
           Sleep],
       fr', Polling).
Proof.
  refine (only_detection_without_tolerance Cases.node_strict Scenario.handle
            Scenario.start_time Scenario.far Cases.on_target
            Scenario.far_events
            (with_self Scenario.far_frame
               (_update_gripper_stat Cases.node_strict
                  (Scenario.stat 0.02 true false)))
            (Scenario.stat 0.04 false false) _ _ _ _ _);
    vm_compute; reflexivity.
Defined.

(** ** From one goal to the next *)

(** X11.  The status attribute is not cleared between goals.  When the node
    comes out of one execution holding a status that reports a detected
    object and no message arrives before the end of the first iteration of
    the next execution, the next goal, whatever its target, is reported
    reached and succeeded on that first iteration, with the position of the
    old status. *)
Theorem stale_detection_ends_next_goal (self0 : Node) (gh1 gh2 : GoalHandle)
    (w1 w2 : World) (t : Tick) (post : list Tick) (stat : GripperStat.t) :
  _stat (self (frame_of (_execute_callback self0 gh1 w1))) = Some stat ->
  GripperStat.obj_detected stat = true ->
  ticks w2 = t :: post ->
  arrivals t = [] ->
  ok t = true ->
  (get_time (now t) - get_time (start w2) <? _timeout self0)%float = true ->
  events_of (_execute_callback
               (self (frame_of (_execute_callback self0 gh1 w1))) gh2 w2)
  = [Log INFO "Gripper executing goal..."; Publish (cmd_msg self0 gh2);
     ThreadStart; Log INFO "Goal achieved: True";
     PublishFeedback (feedback_of Feedback.new stat true);
     Succeed; ThreadJoin].
Proof.
  intros S Obj T A O D.
  apply app_eq_nil in A. destruct A as [M Du].
  destruct (reads_without_messages t stat Du) as (Rp & Rm & Rd).
  destruct (execute_unfolded self0 gh1 w1) as (F & _ & _).
  destruct (loop_keeps_node (get_time (start w1)) (ticks w1) (entry self0 gh1))
    as (K1 & _ & K3 & _).
  rewrite <- F in K1, K3. cbn [entry self] in K1, K3.
  set (node1 := self (frame_of (_execute_callback self0 gh1 w1))) in *.
  assert (S1 : _stat (self (serve t (entry node1 gh2))) = Some stat)
    by (rewrite serve_self, M; exact S).
  assert (R : judged node1 gh2 (position_read t stat) (detect_read t stat)
              = true)
    by (unfold judged; rewrite Rd, Obj; apply orb_true_r).
  rewrite <- K1 in D.
  pose proof (success_stops_polling node1 gh2 (get_time (start w2)) [] post t
                [] (entry node1 gh2) stat eq_refl O D S1 R) as E.
  cbv zeta in E. cbn [app] in E.
  unfold _execute_callback, events_of. rewrite T, E. cbn [fst snd app].
  unfold cmd_msg. rewrite K3, Rp, Rm. reflexivity.
Qed.

(** X11 on a goal that ended on a grasped object at 0.02 m, followed by a
    goal to open to 0.08 m. *)
Lemma stale_detection_ends_next_goal_witness :
  events_of (_execute_callback
               (self (frame_of (_execute_callback Scenario.node Scenario.handle
                                  Cases.grasping)))
               Cases.opening Cases.reopening)
  = [Log INFO "Gripper executing goal...";
     Publish (cmd_msg Scenario.node Cases.opening);
     ThreadStart; Log INFO "Goal achieved: True";
     PublishFeedback
       (feedback_of Feedback.new (Scenario.stat 0.02 false true) true);
     Succeed; ThreadJoin].
Proof.
  apply (stale_detection_ends_next_goal Scenario.node Scenario.handle
           Cases.opening Cases.grasping Cases.reopening Cases.quiet []
           (Scenario.stat 0.02 false true));
    vm_compute; reflexivity.
Defined.

(** ** The process *)

Lemma gripper_is_no_attribute (inherited : list string) :
  ~ In "_gripper" inherited -> has_attribute inherited "_gripper" = false.
Proof.
  intro N. unfold has_attribute. rewrite !existsb_app.
  change (existsb (String.eqb "_gripper") instance_attributes) with false.
  change (existsb (String.eqb "_gripper") class_attributes) with false.
  cbn [orb].
  destruct (existsb (String.eqb "_gripper") inherited) eqn:E; [|reflexivity].
  apply existsb_exists in E. destruct E as (x & Hx & Ex).
  apply String.eqb_eq in Ex. subst x. contradiction.
Qed.

(** X12.  The constructor never assigns [self._gripper].  Unless the base
    class provides an attribute of that name, [shutdown] logs its line and
    raises [AttributeError]; so [main], once [rclpy.spin] returns, ends with
    that exception, and in no case reaches [destroy] or
    [rclpy.shutdown()]. *)
Theorem shutdown_always_fails (inherited : list string)
    (overrides : string -> option float) :
  ~ In "_gripper" inherited ->
  shutdown inherited
  = ([logged INFO "Shutdown gripper"], Some (no_attribute "_gripper"))
  /\ main inherited overrides true
     = ([rclpy_init; node_created (__init__ overrides);
         logged INFO "Gripper server ready"; spinning;
         logged INFO "Shutdown gripper"],
        raised (no_attribute "_gripper"))
  /\ forall spin_ends : bool,
       ~ In action_server_destroyed (fst (main inherited overrides spin_ends))
       /\ ~ In node_destroyed (fst (main inherited overrides spin_ends))
       /\ ~ In rclpy_shutdown (fst (main inherited overrides spin_ends)).
Proof.
  intro N. pose proof (gripper_is_no_attribute inherited N) as A.
  assert (S : shutdown inherited
              = ([logged INFO "Shutdown gripper"],
                 Some (no_attribute "_gripper")))
    by (unfold shutdown; rewrite A; reflexivity).
  split; [exact S|].
  split; [unfold main; rewrite S; reflexivity|].
  intros [|]; unfold main; rewrite ?S; cbn [fst app];
    repeat split; intro I;
    repeat (destruct I as [I|I]; [discriminate I|]); exact I.
Qed.

(** X12 with some of the names the base class does provide. *)
Lemma shutdown_always_fails_witness :
  shutdown Cases.node_names
  = ([logged INFO "Shutdown gripper"], Some (no_attribute "_gripper"))
  /\ main Cases.node_names (fun _ => None) true
     = ([rclpy_init; node_created (__init__ (fun _ => None));
         logged INFO "Gripper server ready"; spinning;
         logged INFO "Shutdown gripper"],
        raised (no_attribute "_gripper")).
Proof.
  destruct (shutdown_always_fails Cases.node_names (fun _ => None))
    as (S & M & _).
  - intro I. cbn in I.
    repeat (destruct I as [I|I]; [discriminate I|]). exact I.
  - split; [exact S | exact M].
Defined.
